(** * hikvision_unbrick.py: the handshake responder and the TFTP engine

    A shallow embedding of [src/hikvision_unbrick.py].  The server object
    becomes a record, its methods become computations in a small monad that
    threads the object, collects what is sent and printed, and carries
    Python exceptions.  Datagrams and the firmware are byte lists; Python
    integers are [Z]. *)

From Stdlib Require Import ZArith List Lia.
From Stdlib Require Import Strings.String Strings.Byte DecimalString.
From stdpp Require Import base option list gmap.

Open Scope Z_scope.

(** ** Bytes and strings *)

(** Python [bytes] are lists of bytes; a Python [str] is a list of code
    points. *)
Abbreviation bytes := (list byte).
Abbreviation pystr := (list N).

#[global] Instance byte_eq_dec : EqDecision byte := Byte.byte_eq_dec.

(** A bytes literal [b'...']. *)
Definition b (s : string) : bytes := list_byte_of_string s.

(** A [str] literal made of ASCII characters. *)
Definition u (s : string) : pystr := map Byte.to_N (list_byte_of_string s).

Definition NUL : byte := "000"%byte.

Definition len {A} (l : list A) : Z := Z.of_nat (length l).

(** [l[a:b]] with Python's treatment of negative and out-of-range bounds. *)
Definition clip_index (n i : Z) : Z :=
  if i <? 0 then Z.max 0 (i + n) else Z.min i n.

Definition py_slice {A} (l : list A) (lo hi : Z) : list A :=
  let lo' := clip_index (len l) lo in
  let hi' := clip_index (len l) hi in
  take (Z.to_nat (hi' - lo')) (drop (Z.to_nat lo') l).

(** [s.startswith(p)] *)
Fixpoint startswith (p s : bytes) : bool :=
  match p, s with
  | [], _ => true
  | _ :: _, [] => false
  | x :: p', y :: s' => if decide (x = y) then startswith p' s' else false
  end.

(** The first occurrence of [sep] in [s]: what is before it and after it. *)
Fixpoint cut_first (sep s : bytes) : option (bytes * bytes) :=
  if startswith sep s then Some ([], drop (length sep) s)
  else match s with
       | [] => None
       | c :: s' =>
           match cut_first sep s' with
           | Some (h, t) => Some (c :: h, t)
           | None => None
           end
       end.

(** [s.split(sep, 1)] for a non-empty separator. *)
Definition bytes_split1 (sep s : bytes) : list bytes :=
  match cut_first sep s with
  | Some (h, t) => [h; t]
  | None => [s]
  end.

(** [s.split(sep)] for a one-byte separator. *)
Fixpoint bytes_split (sep : byte) (s : bytes) : list bytes :=
  match s with
  | [] => [[]]
  | c :: s' =>
      if decide (c = sep) then [] :: bytes_split sep s'
      else match bytes_split sep s' with
           | p :: ps => (c :: p) :: ps
           | [] => [[c]]
           end
  end.

(** [str(z).encode()]: the decimal digits of [z] in ASCII. *)
Definition bytes_of_int (z : Z) : bytes :=
  list_byte_of_string (NilEmpty.string_of_int (Z.to_int z)).

(** ** struct *)

Definition byte_of_Z (z : Z) : byte :=
  default NUL (Byte.of_N (Z.to_N (z mod 256))).

(** [struct.pack('>H', n)]; [None] stands for [struct.error]. *)
Definition pack_H (n : Z) : option bytes :=
  if (0 <=? n) && (n <=? 65535)
  then Some [byte_of_Z (n / 256); byte_of_Z n]
  else None.

(** [struct.pack('>HH', m, n)] *)
Definition pack_HH (m n : Z) : option bytes :=
  match pack_H m, pack_H n with
  | Some x, Some y => Some (x ++ y)
  | _, _ => None
  end.

(** [struct.unpack('>H', buf)[0]]; the buffer must hold two bytes. *)
Definition unpack_H (buf : bytes) : option Z :=
  match buf with
  | [hi; lo] => Some (256 * Z.of_N (Byte.to_N hi) + Z.of_N (Byte.to_N lo))
  | _ => None
  end.

(** [struct.pack('20s', s)]: cut or padded with zero bytes to 20 bytes. *)
Definition pack_20s (s : bytes) : bytes :=
  take 20 s ++ replicate (20 - length s) NUL.

(** ** Constants *)

Definition HANDSHAKE_BYTES : bytes := pack_20s (b "SWKH").
Definition HANDSHAKE_PORT : Z := 9978.
Definition TFTP_PORT : Z := 69.
Definition DEFAULT_BLOCK_SIZE : Z := 512.

Definition OP_RRQ : Z := 1.
Definition OP_DATA : Z := 3.
Definition OP_ACK : Z := 4.
Definition OP_OACK : Z := 6.
Definition ACK_PREFIX : bytes := default [] (pack_H OP_ACK).

(** The marker that ends the mode field of a read request. *)
Definition MODE_MARKER : bytes := NUL :: b "octet" ++ [NUL].

(** ** The builtins that need Unicode tables

    [bytes.decode(errors='ignore')], [str.lower()] and [int(str)] depend on
    the interpreter's Unicode tables, which are no part of the program.
    The engine is written against this interface; everything proved about
    it holds for whatever the three functions are.  [py_int] returns [None]
    where [int] raises [ValueError]. *)
Class PyBuiltins := {
  decode_ignore : bytes -> pystr;
  str_lower : pystr -> pystr;
  py_int : pystr -> option Z
}.

(** *** The builtins on 7-bit text

    An instance to run the engine on concrete packets.  The decoder is
    CPython's UTF-8 decoder with the [ignore] error handler.  [ascii_lower]
    and [ascii_int] are [str.lower] and [int] for strings whose characters
    are all ASCII, where no Unicode table is consulted: other code points
    are left alone by [ascii_lower] and rejected by [ascii_int]. *)

Definition is_cont (c : N) : bool := ((128 <=? c) && (c <=? 191))%N.

Fixpoint utf8_ignore (s : list N) : pystr :=
  match s with
  | [] => []
  | c :: t =>
      if (c <? 128)%N then c :: utf8_ignore t
      else if (c <? 194)%N then utf8_ignore t
      else if (c <? 224)%N then
        match t with
        | [] => []
        | c2 :: t2 =>
            if is_cont c2
            then ((c - 192) * 64 + (c2 - 128))%N :: utf8_ignore t2
            else utf8_ignore t
        end
      else if (c <? 240)%N then
        match t with
        | [] => []
        | c2 :: t2 =>
            if negb (is_cont c2)
               || ((c =? 224) && (c2 <? 160))%N
               || ((c =? 237) && (160 <=? c2))%N
            then utf8_ignore t
            else match t2 with
                 | [] => []
                 | c3 :: t3 =>
                     if is_cont c3
                     then ((c - 224) * 4096 + (c2 - 128) * 64
                           + (c3 - 128))%N :: utf8_ignore t3
                     else utf8_ignore t2
                 end
        end
      else if (c <? 245)%N then
        match t with
        | [] => []
        | c2 :: t2 =>
            if negb (is_cont c2)
               || ((c =? 240) && (c2 <? 144))%N
               || ((c =? 244) && (144 <=? c2))%N
            then utf8_ignore t
            else match t2 with
                 | [] => []
                 | c3 :: t3 =>
                     if is_cont c3
                     then match t3 with
                          | [] => []
                          | c4 :: t4 =>
                              if is_cont c4
                              then ((c - 240) * 262144 + (c2 - 128) * 4096
                                    + (c3 - 128) * 64 + (c4 - 128))%N
                                   :: utf8_ignore t4
                              else utf8_ignore t3
                          end
                     else utf8_ignore t2
                 end
        end
      else utf8_ignore t
  end.

Definition ascii_lower (s : pystr) : pystr :=
  map (fun c => if ((65 <=? c) && (c <=? 90))%N then (c + 32)%N else c) s.

Definition is_space (c : N) : bool :=
  (((9 <=? c) && (c <=? 13)) || (c =? 32))%N.

Definition is_digit (c : N) : bool := ((48 <=? c) && (c <=? 57))%N.

Fixpoint lstrip (s : pystr) : pystr :=
  match s with
  | c :: t => if is_space c then lstrip t else s
  | [] => []
  end.

(** Decimal digits, with single underscores between digits. *)
Fixpoint parse_digits (s : pystr) (acc : Z) (after_digit : bool) : option Z :=
  match s with
  | [] => if after_digit then Some acc else None
  | c :: t =>
      if is_digit c then parse_digits t (acc * 10 + (Z.of_N c - 48)) true
      else if (c =? 95)%N && after_digit then
        match t with
        | d :: _ => if is_digit d then parse_digits t acc false else None
        | [] => None
        end
      else None
  end.

Definition ascii_int (s : pystr) : option Z :=
  match rev (lstrip (rev (lstrip s))) with
  | 45%N :: t => option_map Z.opp (parse_digits t 0 false)
  | 43%N :: t => parse_digits t 0 false
  | t => parse_digits t 0 false
  end.

Definition ascii_builtins : PyBuiltins := {|
  decode_ignore := fun bs => utf8_ignore (map Byte.to_N bs);
  str_lower := ascii_lower;
  py_int := ascii_int
|}.

(** ** The server object, its effects and its exceptions *)

Inductive sock := HandshakeSock | TftpSock.

(** An address is an IP and a port. *)
Abbreviation addr := (string * Z)%type.

Record server := mkServer {
  _data : bytes;
  _filename_bytes : bytes;
  _rrq_prefix : bytes;
  _block_size : Z;
  _total_blocks : Z
}.

Inductive exn :=
  | TFTPError (block_size : Z)   (* "File too large for block size ..." *)
  | BindError (what : Z)         (* a TFTPError raised by _bind *)
  | OSError
  | StructError
  | IndexError
  | ZeroDivisionError
  | LoopFuel.                    (* the loop bound of the model ran out *)

(** What the program prints; times and bars are left out. *)
Inductive message :=
  | MsgBlockSize (size : Z)
  | MsgServing (length total : Z)
  | MsgClientOptions (opts : gmap pystr pystr)
  | MsgHandshakeOK (ip : string)
  | MsgBadHandshake (ip : string) (pkt : bytes)
  | MsgStarting (ip : string)
  | MsgUnexpectedPacket (ip : string) (head : bytes)
  | MsgDone (total : Z)
  | MsgProgress (block total : Z)
  | MsgStarted
  | MsgInterrupted
  | MsgUnexpectedError (e : exn)
  | MsgStopped
  | MsgFileNotFound
  | MsgCannotRead
  | MsgSetupError (e : exn)
  | MsgUnexpectedSetupError (e : exn)
  | MsgGoodbye.

Inductive event :=
  | Sendto (s : sock) (pkt : bytes) (to : addr)
  | Print (m : message).

Inductive result (A : Type) :=
  | Ret (a : A)
  | Raise (e : exn).
Arguments Ret {A} a.
Arguments Raise {A} e.

(** A method: from the object to the object afterwards, what it sent and
    printed in order, and its value or the exception it raised.  An
    exception keeps the changes made before it. *)
Definition M (A : Type) : Type := server -> server * list event * result A.

Definition ret {A} (a : A) : M A := fun s => (s, [], Ret a).

Definition bind {A B} (m : M A) (k : A -> M B) : M B :=
  fun s =>
    match m s with
    | (s1, ev1, Ret a) =>
        match k a s1 with
        | (s2, ev2, r) => (s2, ev1 ++ ev2, r)
        end
    | (s1, ev1, Raise e) => (s1, ev1, Raise e)
    end.

Definition raise {A} (e : exn) : M A := fun s => (s, [], Raise e).
Definition get : M server := fun s => (s, [], Ret s).
Definition put (s' : server) : M unit := fun _ => (s', [], Ret tt).
Definition emit (e : event) : M unit := fun s => (s, [e], Ret tt).
Definition print (m : message) : M unit := emit (Print m).
Definition sendto (k : sock) (pkt : bytes) (to : addr) : M unit :=
  emit (Sendto k pkt to).

(** A partial library call inside a method. *)
Definition orraise {A} (e : exn) (o : option A) : M A :=
  match o with
  | Some a => ret a
  | None => raise e
  end.

Declare Scope py_scope.
Delimit Scope py_scope with py.
Notation "x <- c1 ;; c2" := (bind c1 (fun x => c2))
  (at level 100, c1 at next level, right associativity) : py_scope.
Notation "c1 ;; c2" := (bind c1 (fun _ => c2))
  (at level 100, right associativity) : py_scope.
Open Scope py_scope.

(** The packets a run put on the wire. *)
Definition sent (evs : list event) : list (sock * bytes * addr) :=
  omap (fun e => match e with
                 | Sendto k p a => Some (k, p, a)
                 | Print _ => None
                 end) evs.

(** [socket.recvfrom(bufsize)] on a datagram socket hands over the first
    [bufsize] bytes of the datagram; the rest is discarded. *)
Definition recvfrom (bufsize : Z) (dgram : bytes) : bytes :=
  take (Z.to_nat bufsize) dgram.

(** ** class TFTPServer *)

Section TFTPServer.
Context `{PyBuiltins}.

(** [_set_block_size]: the size is stored before the block count is
    computed, so a zero size fails with the size already changed. *)
Definition _set_block_size (size : Z) : M unit :=
  print (MsgBlockSize size);;
  s <- get;;
  put (mkServer (_data s) (_filename_bytes s) (_rrq_prefix s)
         size (_total_blocks s));;
  (if size =? 0 then raise ZeroDivisionError else ret tt);;
  put (mkServer (_data s) (_filename_bytes s) (_rrq_prefix s)
         size ((len (_data s) + size - 1) / size));;
  print (MsgServing (len (_data s)) ((len (_data s) + size - 1) / size)).

Definition _check_limits : M unit :=
  s <- get;;
  if _total_blocks s >? 65535
  then raise (TFTPError (_block_size s))
  else ret tt.

(** The body of the [while] loop of [_parse_options], at most [fuel]
    rounds; [parts[i]] raises [IndexError] out of range. *)
Fixpoint parse_loop (fuel : nat) (parts : list bytes) (i : nat)
    (opts : gmap pystr pystr) : result (gmap pystr pystr) :=
  if Z.of_nat i <? len parts - 1 then
    match fuel with
    | O => Raise LoopFuel
    | S fuel' =>
        match parts !! i, parts !! (i + 1)%nat with
        | Some k, Some v =>
            let key := str_lower (decode_ignore k) in
            let val := decode_ignore v in
            parse_loop fuel' parts (i + 2)%nat
              (if decide (key = []) then opts else <[key := val]> opts)
        | _, _ => Raise IndexError
        end
    end
  else Ret opts.

Definition _parse_options (pkt : bytes) : M (gmap pystr pystr) :=
  match bytes_split1 MODE_MARKER pkt !! 1%nat with
  | None => ret ∅
  | Some after_mode =>
      let parts := bytes_split NUL after_mode in
      match parse_loop (length parts) parts 0 ∅ with
      | Ret opts => print (MsgClientOptions opts);; ret opts
      | Raise e => raise e
      end
  end.

(** [_send_oack] *)
Definition _send_oack (to : addr) : M unit :=
  _check_limits;;
  s <- get;;
  op <- orraise StructError (pack_H OP_OACK);;
  sendto TftpSock
    (op ++ b "blksize" ++ [NUL] ++ bytes_of_int (_block_size s) ++ [NUL]) to.

(** [_send_block]: the packet goes out before the progress line, whose
    percentage divides by the block count. *)
Definition _send_block (prev_block : Z) (to : addr) : M unit :=
  s <- get;;
  let block := prev_block + 1 in
  let start := prev_block * _block_size s in
  let data := py_slice (_data s) start (start + _block_size s) in
  match data with
  | [] =>
      print (MsgDone (_total_blocks s));;
      if decide (_block_size s = DEFAULT_BLOCK_SIZE) then ret tt
      else _set_block_size DEFAULT_BLOCK_SIZE
  | _ :: _ =>
      hdr <- orraise StructError (pack_HH OP_DATA block);;
      sendto TftpSock (hdr ++ data) to;;
      if _total_blocks s =? 0 then raise ZeroDivisionError
      else print (MsgProgress block (_total_blocks s))
  end.

(** The block size a read request asks for, when the engine takes it: the
    [blksize] option is there, [int] accepts its value, and the value is
    within 8..65464. *)
Definition usable_blksize (opts : gmap pystr pystr) : option Z :=
  match opts !! u "blksize" with
  | Some v =>
      match py_int v with
      | Some sz => if (8 <=? sz) && (sz <=? 65464) then Some sz else None
      | None => None
      end
  | None => None
  end.

(** What a read request without a usable [blksize] does. *)
Definition start_transfer (to : addr) : M unit :=
  _check_limits;;
  print (MsgStarting (fst to));;
  _send_block 0 to.

Definition _handle_tftp (dgram : bytes) (from : addr) : M unit :=
  let pkt := recvfrom 65536 dgram in
  s <- get;;
  if startswith (_rrq_prefix s) pkt then
    opts <- _parse_options pkt;;
    match usable_blksize opts with
    | Some sz => _set_block_size sz;; _send_oack from
    | None => start_transfer from
    end
  else if startswith ACK_PREFIX pkt && (len pkt >=? 4) then
    block <- orraise StructError (unpack_H (py_slice pkt 2 4));;
    _send_block block from
  else print (MsgUnexpectedPacket (fst from) (py_slice pkt 0 8)).

Definition _handle_handshake (dgram : bytes) (from : addr) : M unit :=
  let pkt := recvfrom 20 dgram in
  if decide (pkt = HANDSHAKE_BYTES) then
    sendto HandshakeSock pkt from;;
    print (MsgHandshakeOK (fst from))
  else print (MsgBadHandshake (fst from) pkt).

(** *** The constructor *)

(** How binding a socket ends: [errno] of the [OSError], if any. *)
Inductive bind_outcome :=
  | Bound
  | EADDRNOTAVAIL
  | EADDRINUSE
  | EACCES
  | OtherErrno.

Definition _bind (o : bind_outcome) : result unit :=
  match o with
  | Bound => Ret tt
  | EADDRNOTAVAIL => Raise (BindError 1)
  | EADDRINUSE => Raise (BindError 2)
  | EACCES => Raise (BindError 3)
  | OtherErrno => Raise OSError
  end.

(** The object before [_set_block_size] has run once. *)
Definition blank (filename data : bytes) : server :=
  mkServer data filename
    (default [] (pack_H OP_RRQ) ++ filename ++ MODE_MARKER) 0 0.

(** [__init__]; the file name comes already encoded. *)
Definition __init__ (hs tftp : bind_outcome) (filename data : bytes)
    : server * list event * result unit :=
  match _bind hs with
  | Raise e => (blank filename data, [], Raise e)
  | Ret _ =>
      match _bind tftp with
      | Raise e => (blank filename data, [], Raise e)
      | Ret _ => _set_block_size DEFAULT_BLOCK_SIZE (blank filename data)
      end
  end.

(** The object a successful constructor leaves. *)
Definition new_server (filename data : bytes) : server :=
  (__init__ Bound Bound filename data).1.1.

(** *** The event loop *)

(** One return of [select]: the readable sockets in the order of [socks],
    each with the datagram [recvfrom] will take, or Ctrl-C. *)
Inductive wakeup :=
  | Readable (ready : list (sock * bytes * addr))
  | KeyboardInterrupt.

(** The [for] loop over the readable sockets. *)
Fixpoint serve (ready : list (sock * bytes * addr)) : M unit :=
  match ready with
  | [] => ret tt
  | (HandshakeSock, dgram, from) :: rest =>
      _handle_handshake dgram from;; serve rest
  | (TftpSock, dgram, from) :: rest =>
      _handle_tftp dgram from;; serve rest
  end.

(** [run]: [Ret true] when the loop was left and the sockets closed,
    [Ret false] when the wake-ups given are used up and the server waits
    on. *)
Fixpoint run_loop (ws : list wakeup) : M bool :=
  match ws with
  | [] => ret false
  | KeyboardInterrupt :: _ => print MsgInterrupted;; ret true
  | Readable ready :: ws' =>
      fun s =>
        match serve ready s with
        | (s1, ev, Ret _) =>
            match run_loop ws' s1 with
            | (s2, ev2, r) => (s2, ev ++ ev2, r)
            end
        | (s1, ev, Raise e) => (s1, ev ++ [Print (MsgUnexpectedError e)], Ret true)
        end
  end.

Definition run (ws : list wakeup) : M bool :=
  print MsgStarted;;
  stopped <- run_loop ws;;
  (if stopped : bool then print MsgStopped else ret tt);;
  ret stopped.

(** ** The entry point *)

(** What the program meets outside: the file, the two binds, the
    wake-ups. *)
Record world := {
  arg_filename : bytes;
  isfile : bool;
  file_content : option bytes;   (* [None]: open or read failed *)
  bind_handshake : bind_outcome;
  bind_tftp : bind_outcome;
  wakeups : list wakeup
}.

(** The exit status, or [None] while the server is still waiting. *)
Definition main (w : world) : list event * option Z :=
  if negb (isfile w) then ([Print MsgFileNotFound], Some 1)
  else match file_content w with
  | None | Some [] => ([Print MsgCannotRead], Some 1)
  | Some firmware =>
      match __init__ (bind_handshake w) (bind_tftp w)
              (arg_filename w) firmware with
      | (_, ev, Raise (BindError k)) =>
          (ev ++ [Print (MsgSetupError (BindError k))], Some 1)
      | (_, ev, Raise (TFTPError k)) =>
          (ev ++ [Print (MsgSetupError (TFTPError k))], Some 1)
      | (_, ev, Raise e) =>
          (ev ++ [Print (MsgUnexpectedSetupError e)], Some 1)
      | (s, ev, Ret _) =>
          match run (wakeups w) s with
          | (_, ev2, Ret true) => (ev ++ ev2 ++ [Print MsgGoodbye], Some 0)
          | (_, ev2, _) => (ev ++ ev2, None)
          end
      end
  end.

End TFTPServer.

(** ** Vocabulary of the properties *)

(** The request prefix the constructor builds from the file name. *)
Definition request_prefix (filename : bytes) : bytes :=
  [byte_of_Z 0; byte_of_Z 1] ++ filename ++ NUL :: b "octet" ++ [NUL].

(** The object as the constructor and [_set_block_size] leave it: the
    prefix of its file name, a positive block size and the block count
    that belongs to it. *)
Definition consistent (s : server) : Prop :=
  _rrq_prefix s = request_prefix (_filename_bytes s) /\
  0 < _block_size s /\
  _total_blocks s = (len (_data s) + _block_size s - 1) / _block_size s.

(** A DATA packet: opcode 3, the block number on 16 bits, the payload. *)
Definition data_packet (block : Z) (payload : bytes) : bytes :=
  [byte_of_Z 0; byte_of_Z 3; byte_of_Z (block / 256); byte_of_Z block]
  ++ payload.

(** An OACK packet naming a block size. *)
Definition oack_packet (size : Z) : bytes :=
  [byte_of_Z 0; byte_of_Z 6] ++ b "blksize" ++ [NUL]
  ++ bytes_of_int size ++ [NUL].

(** Bytes [lo, hi) of the firmware, as far as it reaches. *)
Definition firmware_range (data : bytes) (lo hi : Z) : bytes :=
  take (Z.to_nat (hi - lo)) (drop (Z.to_nat lo) data).

(** The opcode a packet starts with. *)
Definition opcode_is (op : Z) (pkt : bytes) : Prop :=
  exists rest, pkt = byte_of_Z 0 :: byte_of_Z op :: rest.

(** The acknowledged block number of a packet, read as the engine does. *)
Definition acked_block (pkt : bytes) : Z :=
  match pkt with
  | _ :: _ :: hi :: lo :: _ =>
      256 * Z.of_N (Byte.to_N hi) + Z.of_N (Byte.to_N lo)
  | _ => 0
  end.

(** The options built from consecutive name/value fields, the first field
    of each pair decoded and lowered, pairs with an empty name left out; a
    last field without a partner is not looked at. *)
Fixpoint options_of_fields `{PyBuiltins} (fields : list bytes)
    (opts : gmap pystr pystr) : gmap pystr pystr :=
  match fields with
  | k :: v :: rest =>
      let key := str_lower (decode_ignore k) in
      options_of_fields rest
        (if decide (key = []) then opts
         else <[key := decode_ignore v]> opts)
  | _ => opts
  end.

(** ** Sample inputs *)

Definition client : addr := ("192.0.0.64"%string, 1069).
Definition FILENAME : bytes := b "digicap.dav".

(** A firmware image of [n] bytes. *)
Definition firmware (n : Z) : bytes := replicate (Z.to_nat n) "U"%byte.

(** A read request for [FILENAME] in octet mode, followed by [options]. *)
Definition rrq (options : bytes) : bytes :=
  request_prefix FILENAME ++ options.

Definition option_field (name value : string) : bytes :=
  b name ++ [NUL] ++ b value ++ [NUL].

(** An acknowledgment of block [k]. *)
Definition ack (k : Z) : bytes :=
  [byte_of_Z 0; byte_of_Z 4; byte_of_Z (k / 256); byte_of_Z k].

(** A server whose client negotiated [size] earlier on. *)
Definition negotiated (size : Z) (s : server) : server :=
  mkServer (_data s) (_filename_bytes s) (_rrq_prefix s) size
    ((len (_data s) + size - 1) / size).

(** The tactics that run a method. *)
Ltac run_method :=
  unfold bind, ret, raise, get, put, emit, print, sendto, orraise; cbn.

(** ** Vocabulary of the further properties *)

#[global] Instance sock_eq_dec : EqDecision sock.
Proof. solve_decision. Defined.

(** The bounds the engine keeps on its block size. *)
Definition block_size_in_range (s : server) : Prop :=
  8 <= _block_size s <= 65464.

(** The acknowledgments of blocks [first], [first + 1], ..., [count] of
    them, as one client sends them to the TFTP socket. *)
Definition ack_script (from : addr) (first count : Z)
    : list (sock * bytes * addr) :=
  map (fun k => (TftpSock, ack k, from)) (seqZ first count).

(** What a DATA packet carries after its four header bytes. *)
Definition payload (pkt : bytes) : bytes := drop 4 pkt.

(** The DATA packet the engine makes for the block after block [k]. *)
Definition data_block (s : server) (k : Z) : bytes :=
  data_packet (k + 1)
    (firmware_range (_data s) (k * _block_size s)
       ((k + 1) * _block_size s)).

(** The option fields of a request, as a client writes them: each name
    and each value closed by a zero byte. *)
Definition encode_options (pairs : list (bytes * bytes)) : bytes :=
  concat (map (fun p => p.1 ++ [NUL] ++ p.2 ++ [NUL]) pairs).

(** The mapping the pairs stand for, later pairs over earlier ones. *)
Definition options_of_pairs `{PyBuiltins} (pairs : list (bytes * bytes))
    : gmap pystr pystr :=
  foldl (fun m p =>
           let key := str_lower (decode_ignore p.1) in
           if decide (key = []) then m
           else <[key := decode_ignore p.2]> m)
        ∅ pairs.

(** The datagrams of a wake-up that are for the TFTP socket. *)
Definition tftp_only (ready : list (sock * bytes * addr))
    : list (sock * bytes * addr) :=
  filter (fun x => x.1.1 = TftpSock) ready.


(** What the event loop keeps of the object it started with: consistency,
    a block size within bounds, the firmware and the request prefix. *)
Definition kept (s0 s : server) : Prop :=
  consistent s /\ block_size_in_range s /\
  _data s = _data s0 /\ _rrq_prefix s = _rrq_prefix s0.

(** * Properties *)

(** ** Bytes, slices and ceiling division *)

Lemma startswith_app (p r : bytes) : startswith p (p ++ r) = true.
Proof.
  induction p as [|x p IH]; simpl; [reflexivity|].
  destruct (decide (x = x)); [exact IH | congruence].
Qed.

Lemma startswith_inv (p s : bytes) :
  startswith p s = true -> exists r, s = p ++ r.
Proof.
  revert s; induction p as [|x p IH]; intros s Hs.
  - exists s; reflexivity.
  - destruct s as [|y s]; simpl in Hs; [discriminate|].
    destruct (decide (x = y)) as [->|]; [|discriminate].
    destruct (IH _ Hs) as [r ->]. exists r; reflexivity.
Qed.

Lemma len_nonneg {A} (l : list A) : 0 <= len l.
Proof. unfold len; lia. Qed.

Lemma len_replicate {A} (n : Z) (x : A) :
  0 <= n -> len (replicate (Z.to_nat n) x) = n.
Proof. intros Hn. unfold len. rewrite length_replicate. lia. Qed.

Lemma ceil_bounds (L S : Z) :
  0 < S -> ((L + S - 1) / S - 1) * S < L <= (L + S - 1) / S * S.
Proof.
  intros HS.
  pose proof (Z.div_mod (L + S - 1) S ltac:(lia)) as Hdm.
  pose proof (Z.mod_pos_bound (L + S - 1) S HS) as Hm.
  nia.
Qed.

Lemma ceil_gt (L S k : Z) :
  0 < S -> (k * S < L <-> k < (L + S - 1) / S).
Proof.
  intros HS. pose proof (ceil_bounds L S HS) as Hc. split; intros Hk; nia.
Qed.

Lemma py_slice_window {A} (l : list A) (lo w : Z) :
  0 <= lo -> 0 <= w ->
  py_slice l lo (lo + w) = take (Z.to_nat w) (drop (Z.to_nat lo) l).
Proof.
  intros Hlo Hw. unfold py_slice, clip_index.
  destruct (Z.ltb_spec lo 0); [lia|].
  destruct (Z.ltb_spec (lo + w) 0); [lia|].
  destruct (Z_lt_le_dec lo (len l)) as [Hin|Hout].
  - rewrite (Z.min_l lo) by lia.
    destruct (Z_lt_le_dec (lo + w) (len l)).
    + rewrite Z.min_l by lia. f_equal. lia.
    + rewrite Z.min_r by lia.
      rewrite !take_ge; [reflexivity| |]; rewrite length_drop; unfold len in *; lia.
  - rewrite !(drop_ge l); [rewrite !take_nil; reflexivity| |];
      unfold len in *; lia.
Qed.

(** The window is empty exactly from the end of the list on. *)
Lemma py_slice_window_nil {A} (l : list A) (lo w : Z) :
  0 <= lo -> 0 < w -> (py_slice l lo (lo + w) = [] <-> len l <= lo).
Proof.
  intros Hlo Hw. rewrite py_slice_window by lia. unfold len. split.
  - intros Hnil. apply (f_equal length) in Hnil.
    rewrite length_take, length_drop in Hnil. simpl in Hnil. lia.
  - intros Hout. rewrite drop_ge by lia. apply take_nil.
Qed.

Lemma pack_H_data : pack_H OP_DATA = Some [byte_of_Z 0; byte_of_Z 3].
Proof. reflexivity. Qed.

Lemma pack_HH_data (block : Z) :
  0 <= block <= 65535 ->
  pack_HH OP_DATA block
  = Some [byte_of_Z 0; byte_of_Z 3; byte_of_Z (block / 256); byte_of_Z block].
Proof.
  intros Hb. unfold pack_HH. rewrite pack_H_data. unfold pack_H.
  destruct (Z.leb_spec 0 block); [|lia].
  destruct (Z.leb_spec block 65535); [|lia]. reflexivity.
Qed.

Lemma pack_HH_overflow (block : Z) :
  65535 < block -> pack_HH OP_DATA block = None.
Proof.
  intros Hb. unfold pack_HH. rewrite pack_H_data. unfold pack_H.
  destruct (Z.leb_spec block 65535); [lia|].
  rewrite andb_false_r. reflexivity.
Qed.

Lemma byte_to_N_bound (x : byte) : (Byte.to_N x < 256)%N.
Proof. pose proof (Byte.to_N_bounded x). lia. Qed.

(** ** The block size and the block count *)

Lemma set_block_size_run (size : Z) (s : server) :
  size <> 0 ->
  _set_block_size size s
  = (negotiated size s,
     [Print (MsgBlockSize size);
      Print (MsgServing (len (_data s))
               ((len (_data s) + size - 1) / size))],
     Ret tt).
Proof.
  intros Hsz. unfold _set_block_size. run_method.
  destruct (Z.eqb_spec size 0); [contradiction|]. reflexivity.
Qed.

Lemma negotiated_consistent (size : Z) (s : server) :
  consistent s -> 0 < size -> consistent (negotiated size s).
Proof.
  intros [Hp _] Hsz. split; [exact Hp | split; [exact Hsz | reflexivity]].
Qed.

Lemma new_server_eq (filename data : bytes) :
  new_server filename data
  = mkServer data filename (request_prefix filename) 512
      ((len data + 512 - 1) / 512).
Proof. reflexivity. Qed.

Lemma new_server_consistent (filename data : bytes) :
  consistent (new_server filename data).
Proof. rewrite new_server_eq. repeat split. Qed.

Lemma check_limits_run (s : server) :
  _check_limits s
  = (s, [], if _total_blocks s >? 65535
            then Raise (TFTPError (_block_size s)) else Ret tt).
Proof.
  unfold _check_limits. run_method.
  destruct (_total_blocks s >? 65535); reflexivity.
Qed.

Lemma check_limits_ok (s : server) :
  _total_blocks s <= 65535 -> _check_limits s = (s, [], Ret tt).
Proof.
  intros Ht. rewrite check_limits_run.
  destruct (Z.gtb_spec (_total_blocks s) 65535); [lia | reflexivity].
Qed.

Lemma check_limits_fail (s : server) :
  65535 < _total_blocks s ->
  _check_limits s = (s, [], Raise (TFTPError (_block_size s))).
Proof.
  intros Ht. rewrite check_limits_run.
  destruct (Z.gtb_spec (_total_blocks s) 65535); [reflexivity | lia].
Qed.

(** ** Sending a block *)

(** The object after a finished transfer. *)
Lemma send_block_window (s : server) (k : Z) :
  consistent s -> 0 <= k ->
  py_slice (_data s) (k * _block_size s) (k * _block_size s + _block_size s)
  = firmware_range (_data s) (k * _block_size s) ((k + 1) * _block_size s).
Proof.
  intros (_ & Hbs & _) Hk. rewrite py_slice_window by nia.
  unfold firmware_range. do 2 f_equal. lia.
Qed.

Lemma send_block_window_nil (s : server) (k : Z) :
  consistent s -> 0 <= k ->
  (firmware_range (_data s) (k * _block_size s) ((k + 1) * _block_size s) = []
   <-> _total_blocks s <= k).
Proof.
  intros Hc Hk. rewrite <- send_block_window by assumption.
  destruct Hc as (_ & Hbs & Ht).
  rewrite py_slice_window_nil by nia. rewrite Ht.
  pose proof (ceil_gt (len (_data s)) (_block_size s) k Hbs). lia.
Qed.

Lemma send_block_past_end (s : server) (k : Z) (to : addr) :
  consistent s -> 0 <= k -> _total_blocks s <= k ->
  _send_block k to s
  = if decide (_block_size s = DEFAULT_BLOCK_SIZE)
    then (s, [Print (MsgDone (_total_blocks s))], Ret tt)
    else (negotiated DEFAULT_BLOCK_SIZE s,
          [Print (MsgDone (_total_blocks s));
           Print (MsgBlockSize DEFAULT_BLOCK_SIZE);
           Print (MsgServing (len (_data s))
                    ((len (_data s) + DEFAULT_BLOCK_SIZE - 1)
                     / DEFAULT_BLOCK_SIZE))],
          Ret tt).
Proof.
  intros Hc Hk Hpast.
  pose proof (proj2 (send_block_window_nil s k Hc Hk) Hpast) as Hnil.
  rewrite <- send_block_window in Hnil by assumption.
  unfold _send_block, bind at 1, get. rewrite Hnil.
  destruct (decide (_block_size s = DEFAULT_BLOCK_SIZE)).
  - reflexivity.
  - unfold bind, print, emit.
    rewrite set_block_size_run by discriminate. reflexivity.
Qed.

Lemma send_block_inside (s : server) (k : Z) (to : addr) :
  consistent s -> 0 <= k -> k < _total_blocks s -> k + 1 <= 65535 ->
  _send_block k to s
  = (s,
     [Sendto TftpSock
        (data_packet (k + 1)
           (firmware_range (_data s) (k * _block_size s)
              ((k + 1) * _block_size s))) to;
      Print (MsgProgress (k + 1) (_total_blocks s))],
     Ret tt).
Proof.
  intros Hc Hk Hin Hfit.
  assert (firmware_range (_data s) (k * _block_size s)
            ((k + 1) * _block_size s) <> []) as Hne.
  { rewrite send_block_window_nil by assumption. lia. }
  rewrite <- send_block_window in * by assumption.
  unfold _send_block, bind at 1, get.
  destruct (py_slice _ _ _) as [|x payload]; [congruence|].
  rewrite pack_HH_data by lia. run_method.
  destruct (Z.eqb_spec (_total_blocks s) 0); [lia | reflexivity].
Qed.

Lemma send_block_struct_error (s : server) (k : Z) (to : addr) :
  consistent s -> 65535 <= k -> k < _total_blocks s ->
  _send_block k to s = (s, [], Raise StructError).
Proof.
  intros Hc Hk Hin.
  assert (firmware_range (_data s) (k * _block_size s)
            ((k + 1) * _block_size s) <> []) as Hne.
  { rewrite send_block_window_nil by (assumption || lia). lia. }
  rewrite <- send_block_window in * by (assumption || lia).
  unfold _send_block, bind at 1, get.
  destruct (py_slice _ _ _) as [|x payload]; [congruence|].
  rewrite pack_HH_overflow by lia. reflexivity.
Qed.

(** ** Option parsing *)

Section Parsing.
Context `{PyBuiltins}.

(** The loop reads the fields two by two and leaves by its own test: any
    bound that covers the fields gives the same options. *)
Lemma parse_loop_fields (fuel : nat) (parts : list bytes) (i : nat)
    (opts : gmap pystr pystr) :
  (length parts <= i + fuel)%nat ->
  parse_loop fuel parts i opts = Ret (options_of_fields (drop i parts) opts).
Proof.
  revert i opts. induction fuel as [|fuel IH]; intros i opts Hfuel.
  - simpl. destruct (Z.ltb_spec (Z.of_nat i) (len parts - 1)) as [Hlt|Hge];
      [unfold len in Hlt; lia|].
    rewrite drop_ge by lia. reflexivity.
  - simpl. destruct (Z.ltb_spec (Z.of_nat i) (len parts - 1)) as [Hlt|Hge].
    + unfold len in Hlt.
      destruct (lookup_lt_is_Some_2 parts i ltac:(lia)) as [k Hk].
      destruct (lookup_lt_is_Some_2 parts (i + 1) ltac:(lia)) as [v Hv].
      rewrite Hk, Hv.
      rewrite (drop_S _ _ _ Hk).
      replace (S i) with (i + 1)%nat by lia.
      rewrite (drop_S _ _ _ Hv).
      replace (S (i + 1)) with (i + 2)%nat by lia.
      rewrite IH by lia. reflexivity.
    + unfold len in Hge.
      destruct (drop i parts) as [|k [|v rest]] eqn:Hd; try reflexivity.
      apply (f_equal length) in Hd. rewrite length_drop in Hd.
      simpl in Hd. lia.
Qed.

(** The options of a request packet: those of the fields after the first
    mode marker, none without a marker. *)
Lemma parse_options_run (pkt : bytes) (s : server) :
  _parse_options pkt s
  = match bytes_split1 MODE_MARKER pkt !! 1%nat with
    | None => (s, [], Ret ∅)
    | Some after_mode =>
        let opts := options_of_fields (bytes_split NUL after_mode) ∅ in
        (s, [Print (MsgClientOptions opts)], Ret opts)
    end.
Proof.
  unfold _parse_options.
  destruct (bytes_split1 MODE_MARKER pkt !! 1%nat) as [after_mode|];
    [|reflexivity].
  rewrite parse_loop_fields by lia. reflexivity.
Qed.

Lemma parse_options_returns (pkt : bytes) :
  exists opts evs,
    sent evs = [] /\ forall s, _parse_options pkt s = (s, evs, Ret opts).
Proof.
  destruct (bytes_split1 MODE_MARKER pkt !! 1%nat) as [after_mode|] eqn:Hs.
  - eexists _, _. split; [|intros s; rewrite parse_options_run, Hs; reflexivity].
    reflexivity.
  - exists ∅, []. split; [reflexivity|].
    intros s. rewrite parse_options_run, Hs. reflexivity.
Qed.

Lemma options_of_fields_keys (fields : list bytes)
    (opts : gmap pystr pystr) (k v : pystr) :
  options_of_fields fields opts !! k = Some v ->
  opts !! k = Some v \/
  (k <> [] /\ exists name value,
      name ∈ fields /\ value ∈ fields /\
      k = str_lower (decode_ignore name) /\ v = decode_ignore value).
Proof.
  revert opts.
  induction fields as [fields IH] using (induction_ltof1 _ (@length bytes)).
  unfold ltof in IH. intros opts Hk.
  destruct fields as [|name [|value rest]]; simpl in Hk; auto.
  apply IH in Hk; [|simpl; lia].
  destruct Hk as [Hk|(Hne & n' & v' & Hn & Hv & Hkn & Hvv)].
  - destruct (decide (str_lower (decode_ignore name) = [])) as [Hempty|Hfull];
      [auto|].
    destruct (decide (k = str_lower (decode_ignore name))) as [->|Hother].
    + rewrite lookup_insert_eq in Hk. injection Hk as <-.
      right. split; [exact Hfull|].
      exists name, value. repeat split; set_solver.
    + rewrite lookup_insert_ne in Hk by congruence. auto.
  - right. split; [exact Hne|].
    exists n', v'. repeat split; set_solver.
Qed.

Lemma options_of_fields_odd (fields : list bytes) (last : bytes)
    (opts : gmap pystr pystr) :
  Nat.Even (length fields) ->
  options_of_fields (fields ++ [last]) opts = options_of_fields fields opts.
Proof.
  revert opts.
  induction fields as [fields IH] using (induction_ltof1 _ (@length bytes)).
  unfold ltof in IH. intros opts Heven.
  destruct fields as [|name [|value rest]].
  - reflexivity.
  - destruct Heven as [n Hn]. simpl in Hn. lia.
  - simpl. apply IH; [simpl; lia|].
    destruct Heven as [n Hn]. simpl in Hn. exists (n - 1)%nat. lia.
Qed.

End Parsing.

Lemma cut_first_None (sep s : bytes) :
  cut_first sep s = None -> forall h t, s <> h ++ sep ++ t.
Proof.
  induction s as [|c s IH]; intros Hcut h t Heq.
  - simpl in Hcut. destruct (startswith sep []) eqn:Hst; [discriminate|].
    destruct h; [|discriminate]. simpl in Heq.
    destruct sep; [discriminate Hst | discriminate].
  - simpl in Hcut. destruct (startswith sep (c :: s)) eqn:Hst; [discriminate|].
    destruct (cut_first sep s) as [[h' t']|] eqn:Hrec; [discriminate|].
    destruct h as [|c' h].
    + simpl in Heq. rewrite Heq, startswith_app in Hst. discriminate.
    + injection Heq as -> Heq. exact (IH eq_refl h t Heq).
Qed.

Lemma cut_first_Some (sep s h t : bytes) :
  cut_first sep s = Some (h, t) -> s = h ++ sep ++ t.
Proof.
  revert h; induction s as [|c s IH]; intros h Hcut.
  - simpl in Hcut. destruct (startswith sep []) eqn:Hst; [|discriminate].
    injection Hcut as <- <-. destruct sep; [reflexivity | discriminate].
  - simpl in Hcut. destruct (startswith sep (c :: s)) eqn:Hst.
    + injection Hcut as <- <-. destruct (startswith_inv _ _ Hst) as [r Hr].
      rewrite Hr at 2. rewrite drop_app_length. exact Hr.
    + destruct (cut_first sep s) as [[h' t']|] eqn:Hrec; [|discriminate].
      injection Hcut as <- <-. simpl. f_equal. apply IH. reflexivity.
Qed.

(** ** The handlers *)

Lemma send_oack_run (to : addr) (s : server) :
  _send_oack to s
  = if _total_blocks s >? 65535
    then (s, [], Raise (TFTPError (_block_size s)))
    else (s, [Sendto TftpSock (oack_packet (_block_size s)) to], Ret tt).
Proof.
  unfold _send_oack, bind at 1. rewrite check_limits_run.
  destruct (_total_blocks s >? 65535); reflexivity.
Qed.

Lemma start_transfer_overflow (to : addr) (s : server) :
  65535 < _total_blocks s ->
  start_transfer to s = (s, [], Raise (TFTPError (_block_size s))).
Proof.
  intros Hover. unfold start_transfer, bind at 1.
  rewrite check_limits_fail by assumption. reflexivity.
Qed.

Lemma start_transfer_run (to : addr) (s : server) :
  _total_blocks s <= 65535 ->
  start_transfer to s
  = (let r := _send_block 0 to s in
     (r.1.1, Print (MsgStarting to.1) :: r.1.2, r.2)).
Proof.
  intros Hfit. unfold start_transfer, bind at 1.
  rewrite check_limits_ok by assumption.
  unfold bind, print, emit.
  destruct (_send_block 0 to s) as [[s1 ev] r]. reflexivity.
Qed.

Lemma consistent_total_pos (s : server) :
  consistent s -> _data s <> [] -> 0 < _total_blocks s.
Proof.
  intros (_ & Hbs & Ht) Hne. rewrite Ht.
  apply (ceil_gt (len (_data s)) (_block_size s) 0 Hbs).
  assert (len (_data s) <> 0); [|pose proof (len_nonneg (_data s)); lia].
  unfold len. destruct (_data s); [congruence | simpl; lia].
Qed.

Lemma consistent_total_nonneg (s : server) :
  consistent s -> 0 <= _total_blocks s.
Proof.
  intros (_ & Hbs & Ht).
  pose proof (ceil_bounds (len (_data s)) (_block_size s) Hbs).
  pose proof (len_nonneg (_data s)). rewrite Ht. nia.
Qed.

Lemma start_transfer_first_block (to : addr) (s : server) :
  consistent s -> _total_blocks s <= 65535 -> _data s <> [] ->
  start_transfer to s
  = (s,
     [Print (MsgStarting to.1);
      Sendto TftpSock
        (data_packet 1 (firmware_range (_data s) 0 (_block_size s))) to;
      Print (MsgProgress 1 (_total_blocks s))],
     Ret tt).
Proof.
  intros Hc Hfit Hne. rewrite start_transfer_run by assumption.
  pose proof (consistent_total_pos s Hc Hne).
  rewrite send_block_inside by (assumption || lia).
  cbn [fst snd]. rewrite Z.mul_0_l, Z.mul_1_l. reflexivity.
Qed.

Lemma recvfrom_head4 (n : Z) (x1 x2 x3 x4 : byte) (rest : bytes) :
  4 <= n ->
  recvfrom n (x1 :: x2 :: x3 :: x4 :: rest)
  = x1 :: x2 :: x3 :: x4 :: recvfrom (n - 4) rest.
Proof.
  intros Hn. unfold recvfrom.
  replace (Z.to_nat n) with (S (S (S (S (Z.to_nat (n - 4)))))) by lia.
  reflexivity.
Qed.

Lemma ack_shape (dgram : bytes) :
  startswith ACK_PREFIX dgram = true -> 4 <= len dgram ->
  exists hi lo rest,
    dgram = byte_of_Z 0 :: byte_of_Z 4 :: hi :: lo :: rest.
Proof.
  intros Hst Hlen. destruct (startswith_inv _ _ Hst) as [r ->].
  destruct r as [|hi [|lo rest]]; try (unfold len in Hlen; cbn in Hlen; lia).
  exists hi, lo, rest. reflexivity.
Qed.

Lemma acked_block_range (pkt : bytes) : 0 <= acked_block pkt <= 65535.
Proof.
  unfold acked_block.
  destruct pkt as [|x1 [|x2 [|hi [|lo rest]]]]; try lia.
  pose proof (byte_to_N_bound hi). pose proof (byte_to_N_bound lo). lia.
Qed.

Lemma unpack_H_field (x1 x2 hi lo : byte) (rest : bytes) :
  unpack_H (py_slice (x1 :: x2 :: hi :: lo :: rest) 2 4)
  = Some (acked_block (x1 :: x2 :: hi :: lo :: rest)).
Proof.
  change 4 with (2 + 2). rewrite py_slice_window by lia. reflexivity.
Qed.

Section Engine.
Context `{PyBuiltins}.

Lemma usable_blksize_range (opts : gmap pystr pystr) (sz : Z) :
  usable_blksize opts = Some sz -> 8 <= sz <= 65464.
Proof.
  unfold usable_blksize. intros Hu.
  destruct (opts !! u "blksize") as [v|]; [|discriminate].
  destruct (py_int v) as [z|]; [|discriminate].
  destruct (Z.leb_spec 8 z); [|discriminate].
  destruct (Z.leb_spec z 65464); [|discriminate].
  injection Hu as <-. lia.
Qed.

(** A read request without a usable [blksize] starts the transfer. *)
Lemma handle_tftp_plain (dgram : bytes) (from : addr) (s : server)
    (opts : gmap pystr pystr) (evs : list event) :
  startswith (_rrq_prefix s) (recvfrom 65536 dgram) = true ->
  _parse_options (recvfrom 65536 dgram) s = (s, evs, Ret opts) ->
  usable_blksize opts = None ->
  _handle_tftp dgram from s
  = (let r := start_transfer from s in (r.1.1, evs ++ r.1.2, r.2)).
Proof.
  intros Hst Hparse Hnone. unfold _handle_tftp, bind at 1, get.
  cbn [app]. rewrite Hst. unfold bind at 1. rewrite Hparse, Hnone.
  destruct (start_transfer from s) as [[s1 ev] r]. reflexivity.
Qed.

(** A read request with a usable [blksize] sets it and answers with an
    OACK, unless the block count is then too large. *)
Lemma handle_tftp_negotiate (dgram : bytes) (from : addr) (s : server)
    (opts : gmap pystr pystr) (evs : list event) (sz : Z) :
  startswith (_rrq_prefix s) (recvfrom 65536 dgram) = true ->
  _parse_options (recvfrom 65536 dgram) s = (s, evs, Ret opts) ->
  usable_blksize opts = Some sz ->
  _handle_tftp dgram from s
  = (negotiated sz s,
     evs ++ [Print (MsgBlockSize sz);
             Print (MsgServing (len (_data s))
                      ((len (_data s) + sz - 1) / sz))]
         ++ (if (len (_data s) + sz - 1) / sz >? 65535 then []
             else [Sendto TftpSock (oack_packet sz) from]),
     if (len (_data s) + sz - 1) / sz >? 65535
     then Raise (TFTPError sz) else Ret tt).
Proof.
  intros Hst Hparse Hsome.
  pose proof (usable_blksize_range _ _ Hsome) as Hrange.
  unfold _handle_tftp, bind at 1, get.
  cbn [app]. rewrite Hst. unfold bind at 1. rewrite Hparse, Hsome.
  unfold bind. rewrite set_block_size_run by lia.
  rewrite send_oack_run. cbn [_total_blocks _block_size negotiated].
  destruct (_ >? 65535); reflexivity.
Qed.

(** An acknowledgment sends the block after the acknowledged one. *)
Lemma handle_tftp_ack (dgram : bytes) (from : addr) (s : server) :
  consistent s ->
  startswith ACK_PREFIX dgram = true -> 4 <= len dgram ->
  _handle_tftp dgram from s = _send_block (acked_block dgram) from s.
Proof.
  intros (Hp & _) Hst Hlen.
  destruct (ack_shape _ Hst Hlen) as (hi & lo & rest & ->).
  unfold _handle_tftp, bind at 1, get. cbn [app].
  rewrite recvfrom_head4 by lia. rewrite Hp.
  change (startswith (request_prefix (_filename_bytes s))
            (byte_of_Z 0 :: byte_of_Z 4 :: hi :: lo :: recvfrom (65536 - 4) rest))
    with false.
  change (startswith ACK_PREFIX
            (byte_of_Z 0 :: byte_of_Z 4 :: hi :: lo :: recvfrom (65536 - 4) rest))
    with true.
  replace (len (byte_of_Z 0 :: byte_of_Z 4 :: hi :: lo
                :: recvfrom (65536 - 4) rest) >=? 4) with true
    by (symmetry; apply Z.geb_le; unfold len; cbn [length]; lia).
  cbn [andb]. unfold bind. rewrite unpack_H_field.
  unfold orraise, ret. cbn [acked_block].
  destruct (_send_block _ from s) as [[s1 ev] r]. reflexivity.
Qed.

End Engine.

(** ** The invariant

    Every object the constructor builds is consistent, and no handler
    breaks that: the premise [consistent] of the properties below holds
    for every state the event loop goes through. *)

Lemma send_block_consistent (s : server) (k : Z) (to : addr) :
  consistent s -> 0 <= k -> consistent (_send_block k to s).1.1.
Proof.
  intros Hc Hk.
  destruct (Z_lt_le_dec k (_total_blocks s)) as [Hin|Hpast].
  - destruct (Z_lt_le_dec k 65535) as [Hfit|Hbig].
    + rewrite send_block_inside by (assumption || lia). exact Hc.
    + rewrite send_block_struct_error by (assumption || lia). exact Hc.
  - rewrite send_block_past_end by assumption.
    destruct (decide (_block_size s = DEFAULT_BLOCK_SIZE)); [exact Hc|].
    apply negotiated_consistent; [exact Hc | reflexivity].
Qed.

Lemma start_transfer_consistent (s : server) (to : addr) :
  consistent s -> consistent (start_transfer to s).1.1.
Proof.
  intros Hc.
  destruct (Z_lt_le_dec 65535 (_total_blocks s)) as [Hover|Hfit].
  - rewrite start_transfer_overflow by assumption. exact Hc.
  - rewrite start_transfer_run by assumption.
    apply (send_block_consistent s 0 to Hc). lia.
Qed.

Section Invariant.
Context `{PyBuiltins}.

Lemma handle_tftp_consistent (dgram : bytes) (from : addr) (s : server) :
  consistent s -> consistent (_handle_tftp dgram from s).1.1.
Proof.
  intros Hc.
  destruct (startswith (_rrq_prefix s) (recvfrom 65536 dgram)) eqn:Hst.
  - destruct (parse_options_returns (recvfrom 65536 dgram))
      as (opts & evs & _ & Hrun).
    destruct (usable_blksize opts) as [sz|] eqn:Hu.
    + rewrite (handle_tftp_negotiate _ _ _ _ _ sz Hst (Hrun s) Hu).
      apply negotiated_consistent; [exact Hc|].
      pose proof (usable_blksize_range _ _ Hu). lia.
    + rewrite (handle_tftp_plain _ _ _ _ _ Hst (Hrun s) Hu).
      apply start_transfer_consistent. exact Hc.
  - unfold _handle_tftp, bind at 1, get. cbn [app]. rewrite Hst.
    destruct (startswith ACK_PREFIX (recvfrom 65536 dgram)
              && (len (recvfrom 65536 dgram) >=? 4)) eqn:Hack;
      [|exact Hc].
    apply andb_prop in Hack. destruct Hack as [Hop Hlen].
    apply Z.geb_le in Hlen.
    destruct (ack_shape _ Hop Hlen) as (hi & lo & rest & Hpkt).
    rewrite Hpkt. unfold bind. rewrite unpack_H_field.
    unfold orraise, ret.
    pose proof (acked_block_range
                  (byte_of_Z 0 :: byte_of_Z 4 :: hi :: lo :: rest)) as HK.
    pose proof (send_block_consistent s _ from Hc (proj1 HK)) as Hnext.
    destruct (_send_block _ from s) as [[s1 ev] r]. exact Hnext.
Qed.

Lemma handle_handshake_unchanged (dgram : bytes) (from : addr) (s : server) :
  (_handle_handshake dgram from s).1.1 = s.
Proof.
  unfold _handle_handshake.
  destruct (decide (recvfrom 20 dgram = HANDSHAKE_BYTES)); reflexivity.
Qed.

Lemma serve_consistent (ready : list (sock * bytes * addr)) (s : server) :
  consistent s -> consistent (serve ready s).1.1.
Proof.
  revert s. induction ready as [|[[k dgram] from] ready IH]; intros s Hc.
  - exact Hc.
  - destruct k; cbn [serve]; unfold bind.
    + pose proof (handle_handshake_unchanged dgram from s) as Hs.
      destruct (_handle_handshake dgram from s) as [[s1 ev] [[]|e]];
        cbn [fst] in Hs; subst s1; [|exact Hc].
      specialize (IH s Hc).
      destruct (serve ready s) as [[s2 ev2] r2]. exact IH.
    + pose proof (handle_tftp_consistent dgram from s Hc) as Hs.
      destruct (_handle_tftp dgram from s) as [[s1 ev] [[]|e]];
        cbn [fst] in Hs; [|exact Hs].
      specialize (IH s1 Hs).
      destruct (serve ready s1) as [[s2 ev2] r2]. exact IH.
Qed.

Lemma run_loop_consistent (ws : list wakeup) (s : server) :
  consistent s -> consistent (run_loop ws s).1.1.
Proof.
  revert s. induction ws as [|[ready|] ws IH]; intros s Hc.
  - exact Hc.
  - cbn [run_loop].
    pose proof (serve_consistent ready s Hc) as Hs.
    destruct (serve ready s) as [[s1 ev] [[]|e]]; cbn [fst] in Hs;
      [|exact Hs].
    specialize (IH s1 Hs).
    destruct (run_loop ws s1) as [[s2 ev2] r2]. exact IH.
  - exact Hc.
Qed.

End Invariant.

(** * The claims *)

(** C1: for a block size S within 8..65464 and any firmware length L,
    [_set_block_size] stores S and the block count ceil(L / S), the least
    number of blocks of S bytes that cover L bytes; [_check_limits] then
    raises exactly when that count is above 65535, and returns at 65535
    and below. *)
Theorem C1_block_count_is_ceiling (s : server) (S : Z) :
  8 <= S <= 65464 ->
  let after := (_set_block_size S s).1.1 in
  (_set_block_size S s).2 = Ret tt /\
  _block_size after = S /\
  (_total_blocks after - 1) * S < len (_data s) <= _total_blocks after * S /\
  (65535 < _total_blocks after
   <-> (_check_limits after).2 = Raise (TFTPError S)) /\
  (_total_blocks after <= 65535 <-> (_check_limits after).2 = Ret tt).
Proof.
  intros HS. rewrite set_block_size_run by lia.
  cbn [fst snd negotiated _block_size _total_blocks].
  split; [reflexivity|]. split; [reflexivity|].
  split; [apply ceil_bounds; lia|].
  rewrite check_limits_run.
  cbn [snd negotiated _total_blocks _block_size].
  destruct (Z.gtb_spec ((len (_data s) + S - 1) / S) 65535);
    split; split; intros; (reflexivity || lia || congruence).
Qed.

(** The boundary: 524280 bytes in blocks of 8 are 65535 blocks. *)
Lemma C1_witness :
  8 <= 8 <= 65464 /\
  let s := new_server FILENAME (firmware 524280) in
  let after := (_set_block_size 8 s).1.1 in
  (_set_block_size 8 s).2 = Ret tt /\
  _block_size after = 8 /\
  (_total_blocks after - 1) * 8 < len (_data s) <= _total_blocks after * 8 /\
  (65535 < _total_blocks after
   <-> (_check_limits after).2 = Raise (TFTPError 8)) /\
  (_total_blocks after <= 65535 <-> (_check_limits after).2 = Ret tt).
Proof.
  split; [lia|].
  apply (C1_block_count_is_ceiling (new_server FILENAME (firmware 524280)) 8).
  lia.
Defined.

(** C7, as stated, fails: the responder reads 20 bytes of the datagram, so
    a datagram of 21 bytes that begins with the token is answered. *)
Lemma C7_counterexample :
  let dgram := HANDSHAKE_BYTES ++ [byte_of_Z 1] in
  dgram <> HANDSHAKE_BYTES /\
  len dgram = 21 /\
  sent (_handle_handshake dgram client
          (new_server FILENAME (firmware 1500))).1.2
  = [(HandshakeSock, HANDSHAKE_BYTES, client)].
Proof.
  split; [|split].
  - intros Heq. apply (f_equal length) in Heq. vm_compute in Heq.
    discriminate Heq.
  - reflexivity.
  - reflexivity.
Qed.

(** C7, amended: the responder looks at the first 20 bytes of a datagram.
    If they are the token it sends the token to the sender, so the token
    itself is echoed byte for byte; otherwise it sends nothing and prints
    the bad handshake.  It never raises and leaves the object alone. *)
Theorem C7_handshake_echo (dgram : bytes) (from : addr) (s : server) :
  let r := _handle_handshake dgram from s in
  r.1.1 = s /\ r.2 = Ret tt /\
  (take 20 dgram = HANDSHAKE_BYTES ->
   r.1.2 = [Sendto HandshakeSock HANDSHAKE_BYTES from;
            Print (MsgHandshakeOK from.1)]) /\
  (take 20 dgram <> HANDSHAKE_BYTES ->
   r.1.2 = [Print (MsgBadHandshake from.1 (take 20 dgram))]) /\
  (dgram = HANDSHAKE_BYTES -> sent r.1.2 = [(HandshakeSock, dgram, from)]).
Proof.
  unfold _handle_handshake.
  change (recvfrom 20 dgram) with (take 20 dgram).
  destruct (decide (take 20 dgram = HANDSHAKE_BYTES)) as [Heq|Hne].
  - rewrite Heq. repeat split; try reflexivity; try congruence.
    intros ->. reflexivity.
  - repeat split; try reflexivity; try congruence.
    intros ->. exfalso. apply Hne. reflexivity.
Qed.

(** C9: on an object whose stored block count is at most 65535, sending
    the block after an acknowledged block K of 0..65535 never fails to
    pack the block number: the call returns normally, a block number
    above 65535 meets an empty slice and nothing is sent, and whenever
    the slice is not empty the header packs. *)
Theorem C9_block_number_fits (s : server) (K : Z) (to : addr) :
  consistent s -> _total_blocks s <= 65535 -> 0 <= K <= 65535 ->
  let slice := py_slice (_data s) (K * _block_size s)
                 (K * _block_size s + _block_size s) in
  (_send_block K to s).2 = Ret tt /\
  (65535 < K + 1 -> slice = [] /\ sent (_send_block K to s).1.2 = []) /\
  (slice <> [] -> 0 <= K + 1 <= 65535 /\ pack_HH OP_DATA (K + 1) <> None).
Proof.
  intros Hc Hfit HK slice. subst slice.
  rewrite send_block_window by (assumption || lia).
  destruct (Z_lt_le_dec K (_total_blocks s)) as [Hin|Hpast].
  - rewrite send_block_inside by (assumption || lia).
    split; [reflexivity|]. split; [lia|].
    intros _. split; [lia|]. rewrite pack_HH_data by lia. discriminate.
  - pose proof (proj2 (send_block_window_nil s K Hc ltac:(lia)) Hpast) as Hnil.
    rewrite send_block_past_end by (assumption || lia).
    destruct (decide (_block_size s = DEFAULT_BLOCK_SIZE));
      (split; [reflexivity|]; split; [intros _; split; [exact Hnil|reflexivity]|]);
      intros Hne; contradiction.
Qed.

Lemma C9_witness :
  let s := new_server FILENAME (firmware 1500) in
  let slice := py_slice (_data s) (65535 * _block_size s)
                 (65535 * _block_size s + _block_size s) in
  consistent s /\ _total_blocks s <= 65535 /\ 0 <= 65535 <= 65535 /\
  (_send_block 65535 client s).2 = Ret tt /\
  (65535 < 65535 + 1 ->
   slice = [] /\ sent (_send_block 65535 client s).1.2 = []) /\
  (slice <> [] ->
   0 <= 65535 + 1 <= 65535 /\ pack_HH OP_DATA (65535 + 1) <> None).
Proof.
  assert (consistent (new_server FILENAME (firmware 1500))) as Hc
    by apply new_server_consistent.
  assert (_total_blocks (new_server FILENAME (firmware 1500)) <= 65535) as Hfit
    by (vm_compute; discriminate).
  split; [exact Hc|]. split; [exact Hfit|]. split; [lia|].
  apply (C9_block_number_fits _ 65535 client Hc Hfit). lia.
Defined.

(** C10: [_parse_options] returns an options mapping for every byte
    string: it never raises, sends nothing and leaves the object alone.
    The mapping is the one built from the name/value fields after the
    first mode marker; without a marker it is empty; a last field without
    a partner is dropped; no key is empty, and every key is the lowered
    decoding of an option name and every value a decoding, the decoder
    being the tolerant one. *)
Theorem C10_parse_options_total `{PyBuiltins} (pkt : bytes) (s : server) :
  exists opts,
    (_parse_options pkt s).2 = Ret opts /\
    (_parse_options pkt s).1.1 = s /\
    sent (_parse_options pkt s).1.2 = [] /\
    ((forall h t, pkt <> h ++ MODE_MARKER ++ t) -> opts = ∅) /\
    (forall head after_mode,
        bytes_split1 MODE_MARKER pkt = [head; after_mode] ->
        opts = options_of_fields (bytes_split NUL after_mode) ∅ /\
        forall fields last,
          bytes_split NUL after_mode = fields ++ [last] ->
          Nat.Even (length fields) ->
          opts = options_of_fields fields ∅) /\
    (forall k v,
        opts !! k = Some v ->
        k <> [] /\
        exists name value,
          k = str_lower (decode_ignore name) /\ v = decode_ignore value).
Proof.
  rewrite parse_options_run. unfold bytes_split1.
  destruct (cut_first MODE_MARKER pkt) as [[head after_mode]|] eqn:Hcut.
  - cbn [lookup list_lookup]. eexists. cbn [fst snd].
    split; [reflexivity|]. split; [reflexivity|]. split; [reflexivity|].
    split; [|split].
    + intros Hno. exfalso. exact (Hno _ _ (cut_first_Some _ _ _ _ Hcut)).
    + intros head' after' Heq. injection Heq as <- <-.
      split; [reflexivity|].
      intros fields last Hf Heven. rewrite Hf.
      apply options_of_fields_odd. exact Heven.
    + intros k v Hk. apply options_of_fields_keys in Hk.
      destruct Hk as [Hk|(Hne & name & value & _ & _ & Hkk & Hvv)].
      * rewrite lookup_empty in Hk. discriminate.
      * split; [exact Hne|]. exists name, value. split; assumption.
  - cbn [lookup list_lookup]. exists ∅. cbn [fst snd].
    split; [reflexivity|]. split; [reflexivity|]. split; [reflexivity|].
    split; [reflexivity|]. split.
    + intros head after_mode Heq. discriminate Heq.
    + intros k v Hk. rewrite lookup_empty in Hk. discriminate.
Qed.

(** With the builtins of 7-bit text: the name is matched whatever its
    case, a byte that is no UTF-8 is passed over, an empty name is
    skipped and the last name, which has no value, is dropped. *)
Example parse_options_sample (s : server) :
  (@_parse_options ascii_builtins
     (rrq (b "BLK" ++ [byte_of_Z 255] ++ b "SIZE" ++ [NUL] ++ b "1024" ++ [NUL]
           ++ [NUL] ++ b "7" ++ [NUL] ++ b "tsize")) s).2
  = Ret {[ u "blksize" := u "1024" ]}.
Proof. vm_compute. reflexivity. Qed.

(** ** The sample requests *)

Lemma len_firmware (n : Z) : 0 <= n -> len (firmware n) = n.
Proof. apply len_replicate. Qed.

Lemma firmware_not_nil (n : Z) : 0 < n -> firmware n <> [].
Proof.
  intros Hn Hnil. apply (f_equal len) in Hnil.
  rewrite len_firmware in Hnil by lia. unfold len in Hnil.
  cbn [length] in Hnil. lia.
Qed.

Lemma total_blocks_new_server (n : Z) :
  0 <= n -> _total_blocks (new_server FILENAME (firmware n)) = (n + 511) / 512.
Proof.
  intros Hn. rewrite new_server_eq. cbn [_total_blocks].
  rewrite len_firmware by assumption. f_equal. lia.
Qed.

(** A request without options. *)
Lemma parse_plain_request (s : server) :
  @_parse_options ascii_builtins (recvfrom 65536 (rrq [])) s
  = (s, [Print (MsgClientOptions ∅)], Ret ∅).
Proof. vm_compute. reflexivity. Qed.

(** A request for blocks of 8 bytes. *)
Lemma parse_blksize_8 (s : server) :
  @_parse_options ascii_builtins
    (recvfrom 65536 (rrq (option_field "blksize" "8"))) s
  = (s, [Print (MsgClientOptions {[ u "blksize" := u "8" ]})],
     Ret {[ u "blksize" := u "8" ]}).
Proof. vm_compute. reflexivity. Qed.

(** A request for blocks of 4 bytes. *)
Lemma parse_blksize_4 (s : server) :
  @_parse_options ascii_builtins
    (recvfrom 65536 (rrq (option_field "blksize" "4"))) s
  = (s, [Print (MsgClientOptions {[ u "blksize" := u "4" ]})],
     Ret {[ u "blksize" := u "4" ]}).
Proof. vm_compute. reflexivity. Qed.

Lemma rrq_starts (options data : bytes) :
  startswith (request_prefix FILENAME) (recvfrom 65536 (rrq options)) = true ->
  startswith (_rrq_prefix (new_server FILENAME data))
    (recvfrom 65536 (rrq options)) = true.
Proof. intros Hst. rewrite new_server_eq. exact Hst. Qed.

(** C2, as stated, fails in two ways.  With a firmware of 33553921 bytes,
    one byte more than 65535 blocks of 512 hold, a request without
    options raises the error of [_check_limits] and sends nothing.  With
    an empty firmware it sends nothing either. *)
Lemma C2_counterexample :
  let big := new_server FILENAME (firmware 33553921) in
  let none := new_server FILENAME [] in
  startswith (_rrq_prefix big) (recvfrom 65536 (rrq [])) = true /\
  (@_parse_options ascii_builtins (recvfrom 65536 (rrq [])) big).2 = Ret ∅ /\
  @usable_blksize ascii_builtins ∅ = None /\
  @_handle_tftp ascii_builtins (rrq []) client big
  = (big, [Print (MsgClientOptions ∅)], Raise (TFTPError 512)) /\
  sent (@_handle_tftp ascii_builtins (rrq []) client none).1.2 = [].
Proof.
  intros big none.
  assert (startswith (_rrq_prefix big) (recvfrom 65536 (rrq [])) = true)
    as Hst by (apply rrq_starts; vm_compute; reflexivity).
  split; [exact Hst|].
  split; [rewrite parse_plain_request; reflexivity|].
  split; [reflexivity|].
  split.
  - rewrite (handle_tftp_plain _ _ _ ∅ _ Hst (parse_plain_request big) eq_refl).
    rewrite start_transfer_overflow.
    + subst big. rewrite new_server_eq. reflexivity.
    + subst big. rewrite total_blocks_new_server by lia. reflexivity.
  - vm_compute. reflexivity.
Qed.

(** C2, amended: a datagram that starts with the request prefix and
    carries no usable [blksize] is answered, when the stored block count
    is at most 65535 and the firmware is not empty, with exactly one
    packet to the requester, DATA block 1 holding the first block-size
    bytes of the firmware; the object is unchanged.  When the block count
    is above 65535 the request raises the error of [_check_limits] and
    nothing is sent; for an empty firmware nothing is sent. *)
Theorem C2_plain_request_first_block `{PyBuiltins} (s : server)
    (dgram : bytes) (from : addr) (opts : gmap pystr pystr) :
  consistent s ->
  startswith (_rrq_prefix s) (recvfrom 65536 dgram) = true ->
  (_parse_options (recvfrom 65536 dgram) s).2 = Ret opts ->
  usable_blksize opts = None ->
  let r := _handle_tftp dgram from s in
  (_total_blocks s <= 65535 -> _data s <> [] ->
   sent r.1.2
   = [(TftpSock,
       data_packet 1 (firmware_range (_data s) 0 (_block_size s)), from)] /\
   r.2 = Ret tt /\ r.1.1 = s) /\
  (65535 < _total_blocks s ->
   sent r.1.2 = [] /\ r.2 = Raise (TFTPError (_block_size s)) /\ r.1.1 = s) /\
  (_data s = [] -> sent r.1.2 = []).
Proof.
  intros Hc Hst Hparse Hnone r. subst r.
  destruct (parse_options_returns (recvfrom 65536 dgram))
    as (opts' & evs & Hquiet & Hrun).
  rewrite Hrun in Hparse. injection Hparse as ->.
  rewrite (handle_tftp_plain _ _ _ _ _ Hst (Hrun s) Hnone).
  cbn zeta. split; [|split].
  - intros Hfit Hne. rewrite start_transfer_first_block by assumption.
    cbn [fst snd]. unfold sent in *. rewrite omap_app, Hquiet.
    repeat split.
  - intros Hover. rewrite start_transfer_overflow by assumption.
    cbn [fst snd]. unfold sent in *. rewrite omap_app, Hquiet.
    repeat split.
  - intros Hempty.
    assert (_total_blocks s = 0) as Hzero.
    { destruct Hc as (_ & Hbs & ->). rewrite Hempty. cbn [length len].
      apply Z.div_small. unfold len. cbn. lia. }
    rewrite start_transfer_run by lia.
    rewrite send_block_past_end by (assumption || lia).
    unfold sent in *.
    destruct (decide (_block_size s = DEFAULT_BLOCK_SIZE));
      cbn [fst snd]; rewrite omap_app, Hquiet; reflexivity.
Qed.

Lemma C2_witness :
  let s := new_server FILENAME (firmware 1500) in
  let r := @_handle_tftp ascii_builtins (rrq []) client s in
  consistent s /\
  startswith (_rrq_prefix s) (recvfrom 65536 (rrq [])) = true /\
  (@_parse_options ascii_builtins (recvfrom 65536 (rrq [])) s).2 = Ret ∅ /\
  @usable_blksize ascii_builtins ∅ = None /\
  (_total_blocks s <= 65535 -> _data s <> [] ->
   sent r.1.2
   = [(TftpSock,
       data_packet 1 (firmware_range (_data s) 0 (_block_size s)), client)] /\
   r.2 = Ret tt /\ r.1.1 = s) /\
  (65535 < _total_blocks s ->
   sent r.1.2 = [] /\ r.2 = Raise (TFTPError (_block_size s)) /\ r.1.1 = s) /\
  (_data s = [] -> sent r.1.2 = []).
Proof.
  intros s r.
  assert (consistent s) as Hc by apply new_server_consistent.
  assert (startswith (_rrq_prefix s) (recvfrom 65536 (rrq [])) = true)
    as Hst by (vm_compute; reflexivity).
  assert ((@_parse_options ascii_builtins (recvfrom 65536 (rrq [])) s).2
          = Ret ∅) as Hp by (rewrite parse_plain_request; reflexivity).
  split; [exact Hc|]. split; [exact Hst|]. split; [exact Hp|].
  split; [reflexivity|].
  exact (@C2_plain_request_first_block ascii_builtins s (rrq []) client ∅
           Hc Hst Hp eq_refl).
Defined.

(** C3, as stated, fails: the constructor does not check the block count,
    so a server started on 33553921 bytes has 65536 blocks of 512, and
    an acknowledgment of block 65535, whose successor does not exceed the
    block count, makes [struct.pack] fail; no packet is sent. *)
Lemma C3_counterexample :
  let big := new_server FILENAME (firmware 33553921) in
  startswith ACK_PREFIX (ack 65535) = true /\
  len (ack 65535) = 4 /\
  acked_block (ack 65535) = 65535 /\
  65535 + 1 <= _total_blocks big /\
  @_handle_tftp ascii_builtins (ack 65535) client big
  = (big, [], Raise StructError).
Proof.
  intros big.
  assert (_total_blocks big = 65536) as Htotal
    by (subst big; rewrite total_blocks_new_server by lia; reflexivity).
  assert (consistent big) as Hc by apply new_server_consistent.
  split; [reflexivity|]. split; [reflexivity|]. split; [reflexivity|].
  split; [lia|].
  rewrite handle_tftp_ack by (exact Hc || reflexivity || (vm_compute; discriminate)).
  change (acked_block (ack 65535)) with 65535.
  apply send_block_struct_error; [exact Hc | lia | lia].
Qed.

(** C3, amended: on an object whose stored block count is at most 65535,
    or for an acknowledged block below 65535, a datagram of at least 4
    bytes that starts with the ACK opcode and acknowledges block K is
    answered with exactly one packet to the sender, DATA block K+1 holding
    firmware bytes [K*S, (K+1)*S), when K+1 does not exceed the block
    count, and with no packet at all when it does; the handler returns
    normally. *)
Theorem C3_ack_sends_next_block `{PyBuiltins} (s : server) (dgram : bytes)
    (from : addr) :
  consistent s ->
  startswith ACK_PREFIX dgram = true -> 4 <= len dgram ->
  acked_block dgram < 65535 \/ _total_blocks s <= 65535 ->
  let K := acked_block dgram in
  let r := _handle_tftp dgram from s in
  0 <= K <= 65535 /\
  r.2 = Ret tt /\
  (K + 1 <= _total_blocks s ->
   sent r.1.2
   = [(TftpSock,
       data_packet (K + 1)
         (firmware_range (_data s) (K * _block_size s)
            ((K + 1) * _block_size s)), from)] /\
   r.1.1 = s) /\
  (_total_blocks s < K + 1 -> sent r.1.2 = []).
Proof.
  intros Hc Hst Hlen Hfit K r. subst K r.
  pose proof (acked_block_range dgram) as HK.
  rewrite handle_tftp_ack by assumption.
  split; [exact HK|].
  destruct (Z_lt_le_dec (acked_block dgram) (_total_blocks s)) as [Hin|Hpast].
  - rewrite send_block_inside by (assumption || lia).
    split; [reflexivity|]. split; [split; reflexivity | lia].
  - rewrite send_block_past_end by (assumption || lia).
    destruct (decide (_block_size s = DEFAULT_BLOCK_SIZE));
      (split; [reflexivity|]; split; [lia | reflexivity]).
Qed.

(** The last two acknowledgments of 1500 bytes in blocks of 512. *)
Lemma C3_witness :
  let s := new_server FILENAME (firmware 1500) in
  let K := acked_block (ack 2) in
  let r := @_handle_tftp ascii_builtins (ack 2) client s in
  consistent s /\
  startswith ACK_PREFIX (ack 2) = true /\ 4 <= len (ack 2) /\
  (acked_block (ack 2) < 65535 \/ _total_blocks s <= 65535) /\
  0 <= K <= 65535 /\
  r.2 = Ret tt /\
  (K + 1 <= _total_blocks s ->
   sent r.1.2
   = [(TftpSock,
       data_packet (K + 1)
         (firmware_range (_data s) (K * _block_size s)
            ((K + 1) * _block_size s)), client)] /\
   r.1.1 = s) /\
  (_total_blocks s < K + 1 -> sent r.1.2 = []).
Proof.
  intros s K r.
  assert (consistent s) as Hc by apply new_server_consistent.
  assert (4 <= len (ack 2)) as Hlen by (vm_compute; discriminate).
  assert (acked_block (ack 2) < 65535 \/ _total_blocks s <= 65535) as Hfit
    by (left; reflexivity).
  split; [exact Hc|]. split; [reflexivity|]. split; [exact Hlen|].
  split; [exact Hfit|].
  exact (@C3_ack_sends_next_block ascii_builtins s (ack 2) client
           Hc eq_refl Hlen Hfit).
Defined.

Lemma usable_blksize_some `{PyBuiltins} (opts : gmap pystr pystr)
    (v : pystr) (sz : Z) :
  opts !! u "blksize" = Some v -> py_int v = Some sz -> 8 <= sz <= 65464 ->
  usable_blksize opts = Some sz.
Proof.
  intros Hv Hint Hrange. unfold usable_blksize. rewrite Hv, Hint.
  destruct (Z.leb_spec 8 sz); [|lia].
  destruct (Z.leb_spec sz 65464); [|lia]. reflexivity.
Qed.

Lemma usable_blksize_none `{PyBuiltins} (opts : gmap pystr pystr)
    (v : pystr) :
  opts !! u "blksize" = Some v ->
  py_int v = None \/ (exists z, py_int v = Some z /\ (z < 8 \/ 65464 < z)) ->
  usable_blksize opts = None.
Proof.
  intros Hv Hbad. unfold usable_blksize. rewrite Hv.
  destruct Hbad as [->|(z & -> & Hz)]; [reflexivity|].
  destruct (Z.leb_spec 8 z); [|reflexivity].
  destruct (Z.leb_spec z 65464); [lia | reflexivity].
Qed.

Lemma oack_is_no_data (size : Z) : ~ opcode_is OP_DATA (oack_packet size).
Proof. intros [rest Heq]. discriminate Heq. Qed.

Lemma data_is_no_oack (block : Z) (payload : bytes) :
  ~ opcode_is OP_OACK (data_packet block payload).
Proof. intros [rest Heq]. discriminate Heq. Qed.

(** C4, as stated, fails: for 524281 bytes, one byte more than 65535
    blocks of 8 hold, a request with blksize=8 gets no OACK; the size is
    taken, the check in [_send_oack] raises and nothing is sent. *)
Lemma C4_counterexample :
  let s := new_server FILENAME (firmware 524281) in
  let dgram := rrq (option_field "blksize" "8") in
  let r := @_handle_tftp ascii_builtins dgram client s in
  startswith (_rrq_prefix s) (recvfrom 65536 dgram) = true /\
  (@_parse_options ascii_builtins (recvfrom 65536 dgram) s).2
  = Ret {[ u "blksize" := u "8" ]} /\
  @py_int ascii_builtins (u "8") = Some 8 /\
  sent r.1.2 = [] /\
  r.2 = Raise (TFTPError 8) /\
  _block_size r.1.1 = 8 /\ _total_blocks r.1.1 = 65536.
Proof.
  intros s dgram r.
  assert (startswith (_rrq_prefix s) (recvfrom 65536 dgram) = true)
    as Hst by (apply rrq_starts; vm_compute; reflexivity).
  split; [exact Hst|].
  split; [subst dgram; rewrite parse_blksize_8; reflexivity|].
  split; [vm_compute; reflexivity|].
  assert (@usable_blksize ascii_builtins {[ u "blksize" := u "8" ]} = Some 8)
    as Husable by (vm_compute; reflexivity).
  pose proof (@handle_tftp_negotiate ascii_builtins _ client s _ _ 8
                Hst (parse_blksize_8 s) Husable) as Hrun.
  subst r. rewrite Hrun.
  cbn [fst snd negotiated _block_size _total_blocks].
  subst s. rewrite new_server_eq. cbn [_data].
  rewrite len_firmware by lia. repeat split.
Qed.

(** C4, amended: a read request whose [blksize] option parses as an
    integer within 8..65464 makes the engine take that value as the block
    size and store the block count that belongs to it.  When that count
    is at most 65535 it answers with exactly one packet, the OACK naming
    the value; when the count is above 65535 it raises the error of
    [_check_limits] and sends nothing.  It sends no DATA packet. *)
Theorem C4_blksize_request_gets_oack `{PyBuiltins} (s : server)
    (dgram : bytes) (from : addr) (opts : gmap pystr pystr)
    (v : pystr) (sz : Z) :
  startswith (_rrq_prefix s) (recvfrom 65536 dgram) = true ->
  (_parse_options (recvfrom 65536 dgram) s).2 = Ret opts ->
  opts !! u "blksize" = Some v -> py_int v = Some sz -> 8 <= sz <= 65464 ->
  let r := _handle_tftp dgram from s in
  _block_size r.1.1 = sz /\
  (_total_blocks r.1.1 - 1) * sz < len (_data s) <= _total_blocks r.1.1 * sz /\
  _data r.1.1 = _data s /\
  (_total_blocks r.1.1 <= 65535 ->
   sent r.1.2 = [(TftpSock, oack_packet sz, from)] /\ r.2 = Ret tt) /\
  (65535 < _total_blocks r.1.1 ->
   sent r.1.2 = [] /\ r.2 = Raise (TFTPError sz)) /\
  (forall k pkt to, (k, pkt, to) ∈ sent r.1.2 -> ~ opcode_is OP_DATA pkt).
Proof.
  intros Hst Hparse Hv Hint Hrange r. subst r.
  destruct (parse_options_returns (recvfrom 65536 dgram))
    as (opts' & evs & Hquiet & Hrun).
  rewrite Hrun in Hparse. injection Hparse as ->.
  rewrite (handle_tftp_negotiate _ _ _ _ _ sz Hst (Hrun s)
             (usable_blksize_some _ _ _ Hv Hint Hrange)).
  cbn [fst snd negotiated _block_size _total_blocks _data].
  split; [reflexivity|]. split; [apply ceil_bounds; lia|].
  split; [reflexivity|].
  unfold sent in *. rewrite !omap_app, Hquiet.
  destruct (Z.gtb_spec ((len (_data s) + sz - 1) / sz) 65535) as [Hover|Hfit].
  - split; [lia|]. split; [intros _; split; reflexivity|].
    intros k pkt to Hin. cbn in Hin. set_solver.
  - split; [intros _; split; reflexivity|]. split; [lia|].
    intros k pkt to Hin. cbn in Hin. apply list_elem_of_singleton in Hin.
    injection Hin as -> -> ->. apply oack_is_no_data.
Qed.

(** blksize=1024 for 1500 bytes. *)
Lemma C4_witness :
  let s := new_server FILENAME (firmware 1500) in
  let dgram := rrq (option_field "blksize" "1024") in
  let r := @_handle_tftp ascii_builtins dgram client s in
  startswith (_rrq_prefix s) (recvfrom 65536 dgram) = true /\
  (@_parse_options ascii_builtins (recvfrom 65536 dgram) s).2
  = Ret {[ u "blksize" := u "1024" ]} /\
  ({[ u "blksize" := u "1024" ]} : gmap pystr pystr) !! u "blksize"
  = Some (u "1024") /\
  @py_int ascii_builtins (u "1024") = Some 1024 /\
  8 <= 1024 <= 65464 /\
  _block_size r.1.1 = 1024 /\
  (_total_blocks r.1.1 - 1) * 1024 < len (_data s)
    <= _total_blocks r.1.1 * 1024 /\
  _data r.1.1 = _data s /\
  (_total_blocks r.1.1 <= 65535 ->
   sent r.1.2 = [(TftpSock, oack_packet 1024, client)] /\ r.2 = Ret tt) /\
  (65535 < _total_blocks r.1.1 ->
   sent r.1.2 = [] /\ r.2 = Raise (TFTPError 1024)) /\
  (forall k pkt to, (k, pkt, to) ∈ sent r.1.2 -> ~ opcode_is OP_DATA pkt).
Proof.
  intros s dgram r.
  assert (startswith (_rrq_prefix s) (recvfrom 65536 dgram) = true)
    as Hst by (vm_compute; reflexivity).
  assert ((@_parse_options ascii_builtins (recvfrom 65536 dgram) s).2
          = Ret {[ u "blksize" := u "1024" ]}) as Hp
    by (vm_compute; reflexivity).
  assert (({[ u "blksize" := u "1024" ]} : gmap pystr pystr) !! u "blksize"
          = Some (u "1024")) as Hv by (vm_compute; reflexivity).
  assert (8 <= 1024 <= 65464) as Hrange by lia.
  split; [exact Hst|]. split; [exact Hp|]. split; [exact Hv|].
  assert (@py_int ascii_builtins (u "1024") = Some 1024) as Hint
    by (vm_compute; reflexivity).
  split; [exact Hint|]. split; [exact Hrange|].
  exact (@C4_blksize_request_gets_oack ascii_builtins s dgram client _ _ 1024
           Hst Hp Hv Hint Hrange).
Defined.

Lemma ceil_antitone (L S1 S2 : Z) :
  0 <= L -> 0 < S1 <= S2 -> (L + S2 - 1) / S2 <= (L + S1 - 1) / S1.
Proof.
  intros HL HS.
  pose proof (ceil_bounds L S1 ltac:(lia)) as H1.
  pose proof (ceil_gt L S2 ((L + S1 - 1) / S1) ltac:(lia)) as H2.
  assert (0 <= (L + S1 - 1) / S1) by (apply Z.div_pos; lia).
  destruct (Z_lt_le_dec ((L + S1 - 1) / S1) ((L + S2 - 1) / S2)) as [Hlt|Hle];
    [|exact Hle].
  apply H2 in Hlt. nia.
Qed.

(** C5, as stated, fails on the repeated call.  1500 bytes requested in
    blocks of 2000 are one block; block 2 meets the end, nothing is sent
    and the block size goes back to 512.  The same call again now finds
    bytes 512..1023 and sends them as DATA block 2. *)
Lemma C5_counterexample :
  let s0 := new_server FILENAME (firmware 1500) in
  let s1 := (@_handle_tftp ascii_builtins
               (rrq (option_field "blksize" "2000")) client s0).1.1 in
  let once := _send_block 1 client s1 in
  let twice := _send_block 1 client once.1.1 in
  _block_size s1 = 2000 /\ _total_blocks s1 = 1 /\
  sent once.1.2 = [] /\ once.2 = Ret tt /\ _block_size once.1.1 = 512 /\
  sent twice.1.2
  = [(TftpSock, data_packet 2 (firmware_range (firmware 1500) 512 1024),
      client)].
Proof. vm_compute. repeat split. Qed.

(** C5, amended: for every block number N above the stored block count,
    sending block N puts nothing on the wire, returns normally and leaves
    the block size at 512 with the block count that belongs to 512.  The
    same call again is a no-op that changes nothing whenever N is also
    above that new block count, which is so whenever the block size was
    512 or less before. *)
Theorem C5_past_the_end_is_silent (s : server) (N : Z) (to : addr) :
  consistent s -> _total_blocks s < N ->
  let once := _send_block (N - 1) to s in
  let twice := _send_block (N - 1) to once.1.1 in
  sent once.1.2 = [] /\ once.2 = Ret tt /\
  _block_size once.1.1 = DEFAULT_BLOCK_SIZE /\
  _total_blocks once.1.1
  = (len (_data s) + DEFAULT_BLOCK_SIZE - 1) / DEFAULT_BLOCK_SIZE /\
  _data once.1.1 = _data s /\
  (_total_blocks once.1.1 < N ->
   sent twice.1.2 = [] /\ twice.2 = Ret tt /\ twice.1.1 = once.1.1) /\
  (_block_size s <= DEFAULT_BLOCK_SIZE -> _total_blocks once.1.1 < N).
Proof.
  intros Hc Hpast once twice. subst twice once.
  pose proof (consistent_total_nonneg s Hc) as Hnn.
  rewrite send_block_past_end by (assumption || lia).
  destruct (decide (_block_size s = DEFAULT_BLOCK_SIZE)) as [Hdef|Hother];
    cbn [fst snd negotiated _block_size _total_blocks _data].
  - split; [reflexivity|]. split; [reflexivity|]. split; [exact Hdef|].
    split; [destruct Hc as (_ & _ & Ht); rewrite Ht, Hdef; reflexivity|].
    split; [reflexivity|]. split; [|intros _; exact Hpast].
    intros _. rewrite send_block_past_end by (assumption || lia).
    destruct (decide (_block_size s = DEFAULT_BLOCK_SIZE)); [|contradiction].
    repeat split.
  - split; [reflexivity|]. split; [reflexivity|]. split; [reflexivity|].
    split; [reflexivity|]. split; [reflexivity|]. split.
    + intros Hagain.
      assert (consistent (negotiated DEFAULT_BLOCK_SIZE s)) as Hc'
        by (apply negotiated_consistent; [exact Hc | reflexivity]).
      rewrite send_block_past_end
        by (exact Hc' || (cbn [negotiated _total_blocks]; lia)).
      cbn [negotiated _block_size].
      destruct (decide (DEFAULT_BLOCK_SIZE = DEFAULT_BLOCK_SIZE));
        [|contradiction].
      repeat split.
    + intros Hsmall. destruct Hc as (_ & Hbs & Ht).
      pose proof (ceil_antitone (len (_data s)) (_block_size s)
                    DEFAULT_BLOCK_SIZE (len_nonneg _) ltac:(lia)).
      lia.
Qed.

(** Block 8 of 1500 bytes in blocks of 512, five past the last. *)
Lemma C5_witness :
  let s := new_server FILENAME (firmware 1500) in
  let once := _send_block (8 - 1) client s in
  let twice := _send_block (8 - 1) client once.1.1 in
  consistent s /\ _total_blocks s < 8 /\
  sent once.1.2 = [] /\ once.2 = Ret tt /\
  _block_size once.1.1 = DEFAULT_BLOCK_SIZE /\
  _total_blocks once.1.1
  = (len (_data s) + DEFAULT_BLOCK_SIZE - 1) / DEFAULT_BLOCK_SIZE /\
  _data once.1.1 = _data s /\
  (_total_blocks once.1.1 < 8 ->
   sent twice.1.2 = [] /\ twice.2 = Ret tt /\ twice.1.1 = once.1.1) /\
  (_block_size s <= DEFAULT_BLOCK_SIZE -> _total_blocks once.1.1 < 8).
Proof.
  intros s once twice.
  assert (consistent s) as Hc by apply new_server_consistent.
  assert (_total_blocks s < 8) as Hpast by (vm_compute; reflexivity).
  split; [exact Hc|]. split; [exact Hpast|].
  exact (C5_past_the_end_is_silent s 8 client Hc Hpast).
Defined.

(** C6, as stated, fails where C2 does: with the 33553921 bytes, a
    request with blksize=4 raises the error of [_check_limits] and sends
    no DATA; with an empty firmware it sends nothing. *)
Lemma C6_counterexample :
  let big := new_server FILENAME (firmware 33553921) in
  let none := new_server FILENAME [] in
  let dgram := rrq (option_field "blksize" "4") in
  startswith (_rrq_prefix big) (recvfrom 65536 dgram) = true /\
  (@_parse_options ascii_builtins (recvfrom 65536 dgram) big).2
  = Ret {[ u "blksize" := u "4" ]} /\
  @py_int ascii_builtins (u "4") = Some 4 /\
  @_handle_tftp ascii_builtins dgram client big
  = (big, [Print (MsgClientOptions {[ u "blksize" := u "4" ]})],
     Raise (TFTPError 512)) /\
  sent (@_handle_tftp ascii_builtins dgram client none).1.2 = [].
Proof.
  intros big none dgram.
  assert (startswith (_rrq_prefix big) (recvfrom 65536 dgram) = true)
    as Hst by (apply rrq_starts; vm_compute; reflexivity).
  assert (@usable_blksize ascii_builtins {[ u "blksize" := u "4" ]} = None)
    as Hnone by (vm_compute; reflexivity).
  split; [exact Hst|].
  split; [subst dgram; rewrite parse_blksize_4; reflexivity|].
  split; [vm_compute; reflexivity|].
  split.
  - pose proof (@handle_tftp_plain ascii_builtins _ client big _ _
                  Hst (parse_blksize_4 big) Hnone) as Hrun.
    rewrite Hrun. rewrite start_transfer_overflow.
    + cbn [fst snd app]. subst big. rewrite new_server_eq. reflexivity.
    + subst big. rewrite total_blocks_new_server by lia. reflexivity.
  - vm_compute. reflexivity.
Qed.

(** C6, amended: a read request whose [blksize] value is refused by
    [int] or lies outside 8..65464 is handled as the request without a
    usable option is: same object afterwards, same packets, same
    outcome, and never an OACK.  When the stored block count is at most
    65535 and the firmware is not empty, that is exactly one packet to
    the requester, DATA block 1 at the current block size, which is left
    unchanged; when the block count is above 65535 it is the error of
    [_check_limits] and no packet. *)
Theorem C6_unusable_blksize_is_ignored `{PyBuiltins} (s : server)
    (dgram : bytes) (from : addr) (opts : gmap pystr pystr) (v : pystr) :
  consistent s ->
  startswith (_rrq_prefix s) (recvfrom 65536 dgram) = true ->
  (_parse_options (recvfrom 65536 dgram) s).2 = Ret opts ->
  opts !! u "blksize" = Some v ->
  py_int v = None \/ (exists z, py_int v = Some z /\ (z < 8 \/ 65464 < z)) ->
  let r := _handle_tftp dgram from s in
  let plain := start_transfer from s in
  (r.1.1 = plain.1.1 /\ sent r.1.2 = sent plain.1.2 /\ r.2 = plain.2) /\
  (forall k pkt to, (k, pkt, to) ∈ sent r.1.2 -> ~ opcode_is OP_OACK pkt) /\
  (_total_blocks s <= 65535 -> _data s <> [] ->
   sent r.1.2
   = [(TftpSock,
       data_packet 1 (firmware_range (_data s) 0 (_block_size s)), from)] /\
   r.2 = Ret tt /\ r.1.1 = s) /\
  (65535 < _total_blocks s ->
   sent r.1.2 = [] /\ r.2 = Raise (TFTPError (_block_size s)) /\ r.1.1 = s).
Proof.
  intros Hc Hst Hparse Hv Hbad r plain. subst r plain.
  destruct (parse_options_returns (recvfrom 65536 dgram))
    as (opts' & evs & Hquiet & Hrun).
  rewrite Hrun in Hparse. injection Hparse as ->.
  rewrite (handle_tftp_plain _ _ _ _ _ Hst (Hrun s)
             (usable_blksize_none _ _ Hv Hbad)).
  cbn zeta.
  assert (forall ev, sent (evs ++ ev) = sent ev) as Hsent.
  { intros ev. unfold sent in *. rewrite omap_app, Hquiet. reflexivity. }
  cbn [fst snd]. rewrite Hsent.
  split; [repeat split|].
  destruct (Z_lt_le_dec 65535 (_total_blocks s)) as [Hover|Hfit].
  - rewrite start_transfer_overflow by assumption. cbn [fst snd].
    split; [intros k pkt to Hin; cbn in Hin; set_solver|].
    split; [lia|]. intros _. repeat split.
  - split; [|split; [|lia]].
    + destruct (_data s) as [|x data] eqn:Hdata.
      * assert (_total_blocks s = 0) as Hzero.
        { destruct Hc as (_ & Hbs & ->). rewrite Hdata.
          apply Z.div_small. unfold len. cbn [length]. lia. }
        rewrite start_transfer_run by lia.
        rewrite send_block_past_end by (assumption || lia).
        intros k pkt to Hin.
        destruct (decide (_block_size s = DEFAULT_BLOCK_SIZE));
          cbn in Hin; set_solver.
      * rewrite start_transfer_first_block
          by (assumption || rewrite Hdata; discriminate).
        intros k pkt to Hin. cbn in Hin.
        apply list_elem_of_singleton in Hin. injection Hin as -> -> ->.
        apply data_is_no_oack.
    + intros _ Hne. rewrite start_transfer_first_block by assumption.
      repeat split.
Qed.

(** blksize=4 for 1500 bytes. *)
Lemma C6_witness :
  let s := new_server FILENAME (firmware 1500) in
  let dgram := rrq (option_field "blksize" "4") in
  let r := @_handle_tftp ascii_builtins dgram client s in
  let plain := start_transfer client s in
  consistent s /\
  startswith (_rrq_prefix s) (recvfrom 65536 dgram) = true /\
  (@_parse_options ascii_builtins (recvfrom 65536 dgram) s).2
  = Ret {[ u "blksize" := u "4" ]} /\
  ({[ u "blksize" := u "4" ]} : gmap pystr pystr) !! u "blksize"
  = Some (u "4") /\
  (@py_int ascii_builtins (u "4") = None \/
   (exists z, @py_int ascii_builtins (u "4") = Some z /\
              (z < 8 \/ 65464 < z))) /\
  (r.1.1 = plain.1.1 /\ sent r.1.2 = sent plain.1.2 /\ r.2 = plain.2) /\
  (forall k pkt to, (k, pkt, to) ∈ sent r.1.2 -> ~ opcode_is OP_OACK pkt) /\
  (_total_blocks s <= 65535 -> _data s <> [] ->
   sent r.1.2
   = [(TftpSock,
       data_packet 1 (firmware_range (_data s) 0 (_block_size s)), client)] /\
   r.2 = Ret tt /\ r.1.1 = s) /\
  (65535 < _total_blocks s ->
   sent r.1.2 = [] /\ r.2 = Raise (TFTPError (_block_size s)) /\ r.1.1 = s).
Proof.
  intros s dgram r plain.
  assert (consistent s) as Hc by apply new_server_consistent.
  assert (startswith (_rrq_prefix s) (recvfrom 65536 dgram) = true)
    as Hst by (vm_compute; reflexivity).
  assert ((@_parse_options ascii_builtins (recvfrom 65536 dgram) s).2
          = Ret {[ u "blksize" := u "4" ]}) as Hp
    by (vm_compute; reflexivity).
  assert (({[ u "blksize" := u "4" ]} : gmap pystr pystr) !! u "blksize"
          = Some (u "4")) as Hv by (vm_compute; reflexivity).
  assert (@py_int ascii_builtins (u "4") = None \/
          (exists z, @py_int ascii_builtins (u "4") = Some z /\
                     (z < 8 \/ 65464 < z))) as Hbad.
  { right. exists 4. split; [vm_compute; reflexivity | lia]. }
  split; [exact Hc|]. split; [exact Hst|]. split; [exact Hp|].
  split; [exact Hv|]. split; [exact Hbad|].
  exact (@C6_unusable_blksize_is_ignored ascii_builtins s dgram client
           {[ u "blksize" := u "4" ]} (u "4") Hc Hst Hp Hv Hbad).
Defined.

(** ** The event loop and the entry point *)

Section Driver.
Context `{PyBuiltins}.

Lemma serve_tftp_raise (dgram : bytes) (from : addr)
    (rest : list (sock * bytes * addr)) (s s1 : server) (ev : list event)
    (e : exn) :
  _handle_tftp dgram from s = (s1, ev, Raise e) ->
  serve ((TftpSock, dgram, from) :: rest) s = (s1, ev, Raise e).
Proof. intros Hh. cbn [serve]. unfold bind. rewrite Hh. reflexivity. Qed.

(** An exception in a handler ends the loop: it is printed as an
    unexpected error and [run] returns. *)
Lemma run_stops_on_raise (ready : list (sock * bytes * addr))
    (ws : list wakeup) (s s1 : server) (ev : list event) (e : exn) :
  serve ready s = (s1, ev, Raise e) ->
  run (Readable ready :: ws) s
  = (s1,
     Print MsgStarted
     :: ev ++ [Print (MsgUnexpectedError e); Print MsgStopped],
     Ret true).
Proof.
  intros Hs. unfold run, bind, print, emit, ret. cbn [run_loop].
  rewrite Hs. cbn [app]. rewrite <- !app_assoc. reflexivity.
Qed.

(** With the file read and both sockets bound, the program runs the loop
    and ends with status 0 when the loop is left. *)
Lemma main_serving (w : world) (fw : bytes) :
  isfile w = true -> file_content w = Some fw -> fw <> [] ->
  bind_handshake w = Bound -> bind_tftp w = Bound ->
  main w
  = (let r := run (wakeups w) (new_server (arg_filename w) fw) in
     ([Print (MsgBlockSize 512);
       Print (MsgServing (len fw) ((len fw + 512 - 1) / 512))]
      ++ r.1.2
      ++ match r.2 with Ret true => [Print MsgGoodbye] | _ => [] end,
      match r.2 with Ret true => Some 0 | _ => None end)).
Proof.
  intros Hfile Hread Hne Hb1 Hb2. unfold main.
  rewrite Hfile, Hread, Hb1, Hb2. cbn [negb].
  destruct fw as [|x fw]; [contradiction|].
  unfold __init__. cbn [_bind].
  rewrite set_block_size_run by discriminate.
  change (negotiated DEFAULT_BLOCK_SIZE (blank (arg_filename w) (x :: fw)))
    with (new_server (arg_filename w) (x :: fw)).
  destruct (run (wakeups w) (new_server (arg_filename w) (x :: fw)))
    as [[s1 ev] [[|]|e]]; cbn [fst snd]; rewrite ?app_nil_r; reflexivity.
Qed.

(** A bind that fails is a setup error and status 1. *)
Lemma main_bind_in_use (w : world) (fw : bytes) :
  isfile w = true -> file_content w = Some fw -> fw <> [] ->
  bind_handshake w = EADDRINUSE ->
  main w = ([Print (MsgSetupError (BindError 2))], Some 1).
Proof.
  intros Hfile Hread Hne Hb1. unfold main.
  rewrite Hfile, Hread, Hb1. cbn [negb].
  destruct fw as [|x fw]; [contradiction|]. reflexivity.
Qed.

(** A request whose block size would need more than 65535 blocks, met
    by a server that was started without trouble: the error is raised in
    the loop, printed there as an unexpected error, and the program ends
    with status 0. *)
Lemma main_overflow_on_request (w : world) (fw dgram : bytes) (from : addr)
    (later : list wakeup) (opts : gmap pystr pystr) (evs : list event)
    (sz : Z) :
  isfile w = true -> file_content w = Some fw -> fw <> [] ->
  bind_handshake w = Bound -> bind_tftp w = Bound ->
  wakeups w = Readable [(TftpSock, dgram, from)] :: later ->
  startswith (request_prefix (arg_filename w)) (recvfrom 65536 dgram) = true ->
  (forall s, _parse_options (recvfrom 65536 dgram) s = (s, evs, Ret opts)) ->
  usable_blksize opts = Some sz ->
  65535 < (len fw + sz - 1) / sz ->
  main w
  = ([Print (MsgBlockSize 512);
      Print (MsgServing (len fw) ((len fw + 512 - 1) / 512));
      Print MsgStarted]
     ++ evs
     ++ [Print (MsgBlockSize sz);
         Print (MsgServing (len fw) ((len fw + sz - 1) / sz));
         Print (MsgUnexpectedError (TFTPError sz));
         Print MsgStopped;
         Print MsgGoodbye],
     Some 0).
Proof.
  intros Hfile Hread Hne Hb1 Hb2 Hwake Hst Hparse Husable Hover.
  rewrite (main_serving w fw) by assumption. rewrite Hwake.
  assert (startswith (_rrq_prefix (new_server (arg_filename w) fw))
            (recvfrom 65536 dgram) = true) as Hst'
    by (rewrite new_server_eq; exact Hst).
  pose proof (handle_tftp_negotiate dgram from _ opts evs sz Hst'
                (Hparse _) Husable) as Hrun.
  assert (_data (new_server (arg_filename w) fw) = fw) as Hdata
    by reflexivity.
  rewrite Hdata in Hrun.
  destruct (Z.gtb_spec ((len fw + sz - 1) / sz) 65535) as [_|Hfit]; [|lia].
  rewrite (run_stops_on_raise _ _ _ _ _ _
             (serve_tftp_raise _ _ [] _ _ _ _ Hrun)).
  cbn [fst snd app]. rewrite <- !app_assoc. reflexivity.
Qed.

End Driver.

(** C8, the code at a failing input: 524281 bytes are served and a client
    asks for blocks of 8 bytes, which would be 65536 blocks.  The error
    of [_check_limits] is raised inside the loop, printed there as an
    unexpected error, and the program ends with status 0 after its
    goodbye; no packet is sent and later datagrams are not looked at. *)
Theorem C8_overflow_ends_with_status_0 (later : list wakeup) :
  @main ascii_builtins
    {| arg_filename := FILENAME;
       isfile := true;
       file_content := Some (firmware 524281);
       bind_handshake := Bound;
       bind_tftp := Bound;
       wakeups :=
         Readable [(TftpSock, rrq (option_field "blksize" "8"), client)]
         :: later |}
  = ([Print (MsgBlockSize 512);
      Print (MsgServing 524281 1024);
      Print MsgStarted;
      Print (MsgClientOptions {[ u "blksize" := u "8" ]});
      Print (MsgBlockSize 8);
      Print (MsgServing 524281 65536);
      Print (MsgUnexpectedError (TFTPError 8));
      Print MsgStopped;
      Print MsgGoodbye],
     Some 0).
Proof.
  rewrite (@main_overflow_on_request ascii_builtins _ (firmware 524281)
             (rrq (option_field "blksize" "8")) client later
             {[ u "blksize" := u "8" ]}
             [Print (MsgClientOptions {[ u "blksize" := u "8" ]})] 8).
  - rewrite len_firmware by lia. reflexivity.
  - reflexivity.
  - reflexivity.
  - apply firmware_not_nil. lia.
  - reflexivity.
  - reflexivity.
  - reflexivity.
  - vm_compute. reflexivity.
  - apply parse_blksize_8.
  - vm_compute. reflexivity.
  - rewrite len_firmware by lia. reflexivity.
Qed.

(** ** Two transfers from start to end *)

(** 1500 bytes at the default block size: three blocks, the last of 476
    bytes; the acknowledgment of block 3 is answered with nothing. *)
Example transfer_default_block_size :
  let fw := firmware 1500 in
  let r := @serve ascii_builtins
             [(TftpSock, rrq [], client); (TftpSock, ack 1, client);
              (TftpSock, ack 2, client); (TftpSock, ack 3, client)]
             (new_server FILENAME fw) in
  sent r.1.2
  = [(TftpSock, data_packet 1 (firmware_range fw 0 512), client);
     (TftpSock, data_packet 2 (firmware_range fw 512 1024), client);
     (TftpSock, data_packet 3 (firmware_range fw 1024 1536), client)] /\
  len (firmware_range fw 1024 1536) = 476 /\
  r.2 = Ret tt /\ _block_size r.1.1 = 512 /\ _total_blocks r.1.1 = 3.
Proof. vm_compute. repeat split. Qed.

(** 1500 bytes with blksize=2000: the OACK, then the whole firmware as
    block 1 on the acknowledgment of block 0; the acknowledgment of block
    1 is answered with nothing and the block size is 512 again. *)
Example transfer_blksize_2000 :
  let fw := firmware 1500 in
  let r := @serve ascii_builtins
             [(TftpSock, rrq (option_field "blksize" "2000"), client);
              (TftpSock, ack 0, client); (TftpSock, ack 1, client)]
             (new_server FILENAME fw) in
  sent r.1.2
  = [(TftpSock, oack_packet 2000, client);
     (TftpSock, data_packet 1 fw, client)] /\
  r.2 = Ret tt /\ _block_size r.1.1 = 512 /\ _total_blocks r.1.1 = 3.
Proof. vm_compute. repeat split. Qed.

(** * Further properties of the engine *)

(** ** What a handler puts on the wire *)

Lemma set_block_size_default_run (s : server) :
  _set_block_size DEFAULT_BLOCK_SIZE s
  = (negotiated DEFAULT_BLOCK_SIZE s,
     [Print (MsgBlockSize DEFAULT_BLOCK_SIZE);
      Print (MsgServing (len (_data s))
               ((len (_data s) + DEFAULT_BLOCK_SIZE - 1)
                / DEFAULT_BLOCK_SIZE))],
     Ret tt).
Proof. apply set_block_size_run. discriminate. Qed.

(** Whatever the object, [_send_block] sends nothing or one DATA packet
    with a payload that is not empty. *)
Lemma send_block_sent (s : server) (k : Z) (to : addr) :
  sent (_send_block k to s).1.2 = [] \/
  exists payload,
    payload <> [] /\
    sent (_send_block k to s).1.2
    = [(TftpSock, data_packet (k + 1) payload, to)].
Proof.
  set (r := _send_block k to s).
  assert (r = _send_block k to s) as Hr by reflexivity. clearbody r.
  unfold _send_block, bind at 1, get in Hr. cbn [app] in Hr.
  destruct (py_slice _ _ _) as [|x data] eqn:Hslice.
  - left. unfold bind, print, emit in Hr.
    destruct (decide (_block_size s = DEFAULT_BLOCK_SIZE));
      [subst r; reflexivity|].
    rewrite set_block_size_default_run in Hr. subst r. reflexivity.
  - destruct (Z_le_gt_dec 0 (k + 1)) as [Hlo|Hlo];
      [destruct (Z_le_gt_dec (k + 1) 65535) as [Hhi|Hhi]|].
    + right. exists (x :: data). split; [discriminate|].
      rewrite pack_HH_data in Hr by lia. subst r. run_method.
      destruct (_total_blocks s =? 0); reflexivity.
    + left. rewrite pack_HH_overflow in Hr by lia. subst r. reflexivity.
    + left. unfold pack_HH in Hr. rewrite pack_H_data in Hr.
      unfold pack_H in Hr.
      destruct (Z.leb_spec 0 (k + 1)); [lia|]. subst r. reflexivity.
Qed.

Lemma data_packet_opcode (block : Z) (payload : bytes) :
  opcode_is OP_DATA (data_packet block payload).
Proof. eexists. reflexivity. Qed.

Lemma oack_packet_opcode (size : Z) : opcode_is OP_OACK (oack_packet size).
Proof. eexists. reflexivity. Qed.

Lemma start_transfer_sent (s : server) (to : addr) :
  sent (start_transfer to s).1.2 = [] \/
  exists payload,
    payload <> [] /\
    sent (start_transfer to s).1.2 = [(TftpSock, data_packet 1 payload, to)].
Proof.
  destruct (Z_lt_le_dec 65535 (_total_blocks s)) as [Hover|Hfit].
  - left. rewrite start_transfer_overflow by assumption. reflexivity.
  - rewrite start_transfer_run by assumption. cbn [fst snd].
    exact (send_block_sent s 0 to).
Qed.

Lemma sent_app (evs1 evs2 : list event) :
  sent (evs1 ++ evs2) = sent evs1 ++ sent evs2.
Proof. unfold sent. apply omap_app. Qed.

(** The test for an acknowledgment sees the same in the datagram and in
    what [recvfrom] hands over. *)
Lemma ack_test_recvfrom (dgram : bytes) :
  startswith ACK_PREFIX (recvfrom 65536 dgram)
  && (len (recvfrom 65536 dgram) >=? 4)
  = startswith ACK_PREFIX dgram && (len dgram >=? 4).
Proof.
  destruct dgram as [|x1 [|x2 [|x3 [|x4 rest]]]];
    try (unfold recvfrom; rewrite take_ge by (cbn [length]; lia);
         reflexivity).
  rewrite recvfrom_head4 by lia.
  replace (len (x1 :: x2 :: x3 :: x4 :: recvfrom (65536 - 4) rest) >=? 4)
    with true by (symmetry; apply Z.geb_le; unfold len; cbn [length]; lia).
  replace (len (x1 :: x2 :: x3 :: x4 :: rest) >=? 4)
    with true by (symmetry; apply Z.geb_le; unfold len; cbn [length]; lia).
  reflexivity.
Qed.

Section Replies.
Context `{PyBuiltins}.

(** The three ways of [_handle_tftp], by its own tests. *)
Lemma handle_tftp_other (dgram : bytes) (from : addr) (s : server) :
  startswith (_rrq_prefix s) (recvfrom 65536 dgram) = false ->
  startswith ACK_PREFIX dgram && (len dgram >=? 4) = false ->
  _handle_tftp dgram from s
  = (s, [Print (MsgUnexpectedPacket from.1
                  (py_slice (recvfrom 65536 dgram) 0 8))], Ret tt).
Proof.
  intros Hst Hack. rewrite <- ack_test_recvfrom in Hack.
  unfold _handle_tftp, bind at 1, get. cbn [app].
  rewrite Hst, Hack. reflexivity.
Qed.

Lemma handle_tftp_ack_any (dgram : bytes) (from : addr) (s : server) :
  startswith (_rrq_prefix s) (recvfrom 65536 dgram) = false ->
  startswith ACK_PREFIX dgram && (len dgram >=? 4) = true ->
  _handle_tftp dgram from s = _send_block (acked_block dgram) from s.
Proof.
  intros Hst Hack. apply andb_prop in Hack. destruct Hack as [Hop Hlen].
  apply Z.geb_le in Hlen.
  destruct (ack_shape _ Hop Hlen) as (hi & lo & rest & ->).
  unfold _handle_tftp, bind at 1, get. cbn [app].
  rewrite Hst. rewrite recvfrom_head4 by lia.
  change (startswith ACK_PREFIX
            (byte_of_Z 0 :: byte_of_Z 4 :: hi :: lo :: recvfrom (65536 - 4) rest))
    with true.
  replace (len (byte_of_Z 0 :: byte_of_Z 4 :: hi :: lo
                :: recvfrom (65536 - 4) rest) >=? 4) with true
    by (symmetry; apply Z.geb_le; unfold len; cbn [length]; lia).
  cbn [andb]. unfold bind. rewrite unpack_H_field.
  unfold orraise, ret. cbn [acked_block].
  destruct (_send_block _ from s) as [[s1 ev] r]. reflexivity.
Qed.

(** X2: whatever the datagram and whatever the state, [_handle_tftp] puts
    at most one packet on the wire; it goes out on the TFTP socket, to
    the sender of the datagram, and is a DATA or an OACK packet. *)
Theorem tftp_reply_is_single (dgram : bytes) (from : addr) (s : server) :
  let out := sent (_handle_tftp dgram from s).1.2 in
  out = [] \/
  exists pkt,
    out = [(TftpSock, pkt, from)] /\
    (opcode_is OP_DATA pkt \/ opcode_is OP_OACK pkt).
Proof.
  cbn zeta.
  destruct (startswith (_rrq_prefix s) (recvfrom 65536 dgram)) eqn:Hst.
  - destruct (parse_options_returns (recvfrom 65536 dgram))
      as (opts & evs & Hquiet & Hrun).
    destruct (usable_blksize opts) as [sz|] eqn:Hu.
    + rewrite (handle_tftp_negotiate _ _ _ _ _ sz Hst (Hrun s) Hu).
      cbn [fst snd]. rewrite !sent_app, Hquiet.
      destruct (_ >? 65535); [left; reflexivity|].
      right. eexists. split; [reflexivity|]. right. apply oack_packet_opcode.
    + rewrite (handle_tftp_plain _ _ _ _ _ Hst (Hrun s) Hu).
      cbn [fst snd]. rewrite sent_app, Hquiet. cbn [app].
      destruct (start_transfer_sent s from) as [->|(p & _ & ->)];
        [left; reflexivity|].
      right. eexists. split; [reflexivity|]. left. apply data_packet_opcode.
  - destruct (startswith ACK_PREFIX dgram && (len dgram >=? 4)) eqn:Hack.
    + rewrite handle_tftp_ack_any by assumption.
      destruct (send_block_sent s (acked_block dgram) from)
        as [->|(p & _ & ->)]; [left; reflexivity|].
      right. eexists. split; [reflexivity|]. left. apply data_packet_opcode.
    + rewrite handle_tftp_other by assumption. left. reflexivity.
Qed.

(** X3: on a consistent object with at most 65535 blocks, a datagram that
    does not start with the request prefix never makes the handler
    raise; and unless it starts with the ACK opcode and has 4 bytes or
    more it is dropped: nothing is sent and the object stays as it is. *)
Theorem non_request_is_harmless (dgram : bytes) (from : addr) (s : server) :
  consistent s -> _total_blocks s <= 65535 ->
  startswith (_rrq_prefix s) (recvfrom 65536 dgram) = false ->
  let r := _handle_tftp dgram from s in
  r.2 = Ret tt /\
  (startswith ACK_PREFIX dgram = false \/ len dgram < 4 ->
   r.1.1 = s /\ sent r.1.2 = []).
Proof.
  intros Hc Hfit Hst r. subst r.
  destruct (startswith ACK_PREFIX dgram && (len dgram >=? 4)) eqn:Hack.
  - rewrite handle_tftp_ack_any by assumption.
    pose proof (acked_block_range dgram) as HK.
    split.
    + destruct (Z_lt_le_dec (acked_block dgram) (_total_blocks s)).
      * rewrite send_block_inside by (assumption || lia). reflexivity.
      * rewrite send_block_past_end by (assumption || lia).
        destruct (decide (_block_size s = DEFAULT_BLOCK_SIZE)); reflexivity.
    + apply andb_prop in Hack. destruct Hack as [Hop Hlen].
      apply Z.geb_le in Hlen. intros [Hno|Hshort]; [congruence | lia].
  - rewrite handle_tftp_other by assumption. repeat split.
Qed.

End Replies.

Lemma non_request_is_harmless_witness :
  let s := new_server FILENAME (firmware 1500) in
  let dgram := [byte_of_Z 0; byte_of_Z 2] ++ FILENAME ++ MODE_MARKER in
  let r := @_handle_tftp ascii_builtins dgram client s in
  consistent s /\ _total_blocks s <= 65535 /\
  startswith (_rrq_prefix s) (recvfrom 65536 dgram) = false /\
  r.2 = Ret tt /\
  (startswith ACK_PREFIX dgram = false \/ len dgram < 4 ->
   r.1.1 = s /\ sent r.1.2 = []).
Proof.
  intros s dgram r.
  assert (consistent s) as Hc by apply new_server_consistent.
  assert (_total_blocks s <= 65535) as Hfit by (vm_compute; discriminate).
  assert (startswith (_rrq_prefix s) (recvfrom 65536 dgram) = false) as Hst
    by (vm_compute; reflexivity).
  split; [exact Hc|]. split; [exact Hfit|]. split; [exact Hst|].
  exact (@non_request_is_harmless ascii_builtins dgram client s Hc Hfit Hst).
Defined.

(** ** Block numbers, payloads and whole transfers *)

Lemma byte_of_Z_value (z : Z) :
  Z.of_N (Byte.to_N (byte_of_Z z)) = z mod 256.
Proof.
  pose proof (Z.mod_pos_bound z 256 ltac:(lia)) as Hm.
  unfold byte_of_Z.
  destruct (Byte.of_N (Z.to_N (z mod 256))) as [y|] eqn:Hy.
  - apply Byte.to_of_N in Hy. cbn. rewrite Hy. lia.
  - apply Byte.of_N_None_iff in Hy. lia.
Qed.

Lemma acked_block_ack (k : Z) : 0 <= k <= 65535 -> acked_block (ack k) = k.
Proof.
  intros Hk. unfold ack. cbn [acked_block]. rewrite !byte_of_Z_value.
  pose proof (Z.div_mod k 256 ltac:(lia)) as Hdm.
  assert (0 <= k / 256 < 256) as Hq
    by (split; [apply Z.div_pos; lia | apply Z.div_lt_upper_bound; lia]).
  rewrite (Z.mod_small (k / 256)) by lia. lia.
Qed.

Lemma len_firmware_range (data : bytes) (lo hi : Z) :
  0 <= lo <= hi ->
  len (firmware_range data lo hi) = Z.max 0 (Z.min (hi - lo) (len data - lo)).
Proof.
  intros Hr. unfold firmware_range, len.
  rewrite length_take, length_drop. lia.
Qed.

(** X4: the payload of the DATA packet for the block after block K is
    never empty and never longer than the block size; it holds a full
    block unless it is the last block, which holds what is left. *)
Theorem data_payload_size (s : server) (K : Z) (to : addr) :
  consistent s -> 0 <= K < _total_blocks s -> K + 1 <= 65535 ->
  exists data,
    sent (_send_block K to s).1.2
    = [(TftpSock, data_packet (K + 1) data, to)] /\
    len data
    = Z.min (_block_size s) (len (_data s) - K * _block_size s) /\
    0 < len data <= _block_size s /\
    (K + 1 < _total_blocks s -> len data = _block_size s).
Proof.
  intros Hc HK Hfit.
  rewrite send_block_inside by (assumption || lia).
  eexists. split; [reflexivity|].
  destruct Hc as (_ & Hbs & Ht).
  pose proof (len_nonneg (_data s)) as HL.
  pose proof (proj2 (ceil_gt (len (_data s)) (_block_size s) K Hbs)
                ltac:(lia)) as Hin.
  rewrite len_firmware_range by nia.
  replace ((K + 1) * _block_size s - K * _block_size s)
    with (_block_size s) by lia.
  split; [lia|]. split; [lia|].
  intros Hmore.
  pose proof (proj2 (ceil_gt (len (_data s)) (_block_size s) (K + 1) Hbs)
                ltac:(lia)).
  lia.
Qed.

Lemma data_payload_size_witness :
  let s := new_server FILENAME (firmware 1500) in
  consistent s /\ 0 <= 2 < _total_blocks s /\ 2 + 1 <= 65535 /\
  exists data,
    sent (_send_block 2 client s).1.2
    = [(TftpSock, data_packet (2 + 1) data, client)] /\
    len data
    = Z.min (_block_size s) (len (_data s) - 2 * _block_size s) /\
    0 < len data <= _block_size s /\
    (2 + 1 < _total_blocks s -> len data = _block_size s).
Proof.
  intros s.
  assert (consistent s) as Hc by apply new_server_consistent.
  assert (0 <= 2 < _total_blocks s) as HK by (vm_compute; split; congruence).
  assert (2 + 1 <= 65535) as Hfit by lia.
  split; [exact Hc|]. split; [exact HK|]. split; [exact Hfit|].
  exact (data_payload_size s 2 client Hc HK Hfit).
Defined.

(** The blocks of a list put together again. *)
Lemma blocks_concat (data : bytes) (S : Z) (n : nat) :
  0 < S ->
  concat (map (fun k => firmware_range data (k * S) ((k + 1) * S))
            (seqZ 0 (Z.of_nat n)))
  = take (Z.to_nat (Z.of_nat n * S)) data.
Proof.
  intros HS. induction n as [|n IH].
  - reflexivity.
  - rewrite seqZ_S, map_app, concat_app, IH. cbn [map concat].
    rewrite app_nil_r. unfold firmware_range.
    rewrite Z.add_0_l.
    replace (Z.to_nat ((Z.of_nat n + 1) * S - Z.of_nat n * S))
      with (Z.to_nat S) by lia.
    rewrite take_take_drop. f_equal. nia.
Qed.

Lemma payload_data_packet (block : Z) (data : bytes) :
  payload (data_packet block data) = data.
Proof. reflexivity. Qed.

Section Transfers.
Context `{PyBuiltins}.

(** X5: an acknowledgment built from the block number k of 0..65535, as
    a client builds it from the header of the DATA packet it got, is
    read back as k: the engine answers it as [_send_block k] does. *)
Theorem ack_is_read_back (s : server) (k : Z) (from : addr)
    (data : bytes) :
  consistent s -> 0 <= k <= 65535 ->
  ack k = ACK_PREFIX ++ take 2 (drop 2 (data_packet k data)) /\
  acked_block (ack k) = k /\
  _handle_tftp (ack k) from s = _send_block k from s.
Proof.
  intros Hc Hk. split; [reflexivity|].
  split; [apply acked_block_ack; exact Hk|].
  rewrite handle_tftp_ack
    by (exact Hc || reflexivity || (unfold len; cbn [ack length]; lia)).
  rewrite acked_block_ack by exact Hk. reflexivity.
Qed.

(** A run of acknowledgments of blocks inside the firmware: each is
    answered with the block after it and the object stays as it is. *)
Lemma serve_acks (s : server) (from : addr) (ks : list Z) :
  consistent s -> _total_blocks s <= 65535 ->
  Forall (fun k => 0 <= k < _total_blocks s) ks ->
  exists evs,
    serve (map (fun k => (TftpSock, ack k, from)) ks) s = (s, evs, Ret tt) /\
    sent evs = map (fun k => (TftpSock, data_block s k, from)) ks.
Proof.
  intros Hc Hfit Hks. induction Hks as [|k ks Hk _ IH].
  - exists []. split; reflexivity.
  - destruct IH as (evs & Hserve & Hsent).
    cbn [map serve]. unfold bind.
    rewrite handle_tftp_ack
      by (exact Hc || reflexivity || (unfold len; cbn [ack length]; lia)).
    rewrite acked_block_ack by lia.
    rewrite send_block_inside by (assumption || lia).
    rewrite Hserve. eexists. split; [reflexivity|].
    rewrite sent_app, Hsent. reflexivity.
Qed.

(** X6: on a consistent object with at most 65535 blocks, a client that
    acknowledges blocks 0, 1, ... up to the one before the last gets the
    DATA blocks 1, 2, ... up to the last, in that order and nothing
    else, and their payloads put together are the firmware.  The object
    is the same afterwards. *)
Theorem ack_script_delivers_firmware (s : server) (from : addr) :
  consistent s -> _total_blocks s <= 65535 ->
  let r := serve (ack_script from 0 (_total_blocks s)) s in
  r.2 = Ret tt /\ r.1.1 = s /\
  sent r.1.2
  = map (fun k => (TftpSock, data_block s k, from))
      (seqZ 0 (_total_blocks s)) /\
  concat (map (fun x => payload x.1.2) (sent r.1.2)) = _data s.
Proof.
  intros Hc Hfit r. subst r. unfold ack_script.
  destruct (serve_acks s from (seqZ 0 (_total_blocks s)) Hc Hfit)
    as (evs & Hserve & Hsent).
  { apply Forall_seqZ. intros k Hk. lia. }
  rewrite Hserve. cbn [fst snd].
  split; [reflexivity|]. split; [reflexivity|]. split; [exact Hsent|].
  rewrite Hsent, map_map. cbn [fst snd]. unfold data_block.
  erewrite map_ext by (intros k; apply payload_data_packet).
  pose proof (consistent_total_nonneg s Hc) as Hnn.
  destruct Hc as (_ & Hbs & Ht).
  rewrite <- (Z2Nat.id (_total_blocks s)) by exact Hnn.
  rewrite blocks_concat by exact Hbs.
  apply take_ge.
  pose proof (ceil_bounds (len (_data s)) (_block_size s) Hbs) as Hc'.
  rewrite <- Ht in Hc'. unfold len in Hc'. nia.
Qed.

End Transfers.

Lemma ack_is_read_back_witness :
  let s := new_server FILENAME (firmware 1500) in
  consistent s /\ 0 <= 300 <= 65535 /\
  ack 300 = ACK_PREFIX ++ take 2 (drop 2 (data_packet 300 [])) /\
  acked_block (ack 300) = 300 /\
  @_handle_tftp ascii_builtins (ack 300) client s = _send_block 300 client s.
Proof.
  intros s.
  assert (consistent s) as Hc by apply new_server_consistent.
  assert (0 <= 300 <= 65535) as Hk by lia.
  split; [exact Hc|]. split; [exact Hk|].
  exact (@ack_is_read_back ascii_builtins s 300 client [] Hc Hk).
Defined.

Lemma ack_script_delivers_firmware_witness :
  let s := new_server FILENAME (firmware 1500) in
  let r := @serve ascii_builtins (ack_script client 0 (_total_blocks s)) s in
  consistent s /\ _total_blocks s <= 65535 /\
  r.2 = Ret tt /\ r.1.1 = s /\
  sent r.1.2
  = map (fun k => (TftpSock, data_block s k, client))
      (seqZ 0 (_total_blocks s)) /\
  concat (map (fun x => payload x.1.2) (sent r.1.2)) = _data s.
Proof.
  intros s r.
  assert (consistent s) as Hc by apply new_server_consistent.
  assert (_total_blocks s <= 65535) as Hfit by (vm_compute; discriminate).
  split; [exact Hc|]. split; [exact Hfit|].
  exact (@ack_script_delivers_firmware ascii_builtins s client Hc Hfit).
Defined.

Lemma blocks_cover (s : server) :
  consistent s ->
  concat (map (fun k => payload (data_block s k))
            (seqZ 0 (_total_blocks s)))
  = _data s.
Proof.
  intros Hc. unfold data_block.
  erewrite map_ext by (intros k; apply payload_data_packet).
  pose proof (consistent_total_nonneg s Hc) as Hnn.
  destruct Hc as (_ & Hbs & Ht).
  rewrite <- (Z2Nat.id (_total_blocks s)) by exact Hnn.
  rewrite blocks_concat by exact Hbs.
  apply take_ge.
  pose proof (ceil_bounds (len (_data s)) (_block_size s) Hbs) as Hc'.
  rewrite <- Ht in Hc'. unfold len in Hc'. nia.
Qed.

Section Negotiated.
Context `{PyBuiltins}.

(** X7: a read request with a usable [blksize] of sz whose block count
    is at most 65535, followed by the acknowledgments of blocks 0, 1, ...
    up to the one before the last, is answered with the OACK and then the
    DATA blocks 1, 2, ... up to the last at the block size sz, and their
    payloads put together are the firmware. *)
Theorem negotiated_transfer_delivers_firmware (s : server) (dgram : bytes)
    (from : addr) (opts : gmap pystr pystr) (v : pystr) (sz : Z) :
  consistent s ->
  startswith (_rrq_prefix s) (recvfrom 65536 dgram) = true ->
  (_parse_options (recvfrom 65536 dgram) s).2 = Ret opts ->
  opts !! u "blksize" = Some v -> py_int v = Some sz -> 8 <= sz <= 65464 ->
  (len (_data s) + sz - 1) / sz <= 65535 ->
  let total := (len (_data s) + sz - 1) / sz in
  let r := serve ((TftpSock, dgram, from) :: ack_script from 0 total) s in
  r.2 = Ret tt /\ r.1.1 = negotiated sz s /\
  sent r.1.2
  = (TftpSock, oack_packet sz, from)
    :: map (fun k => (TftpSock, data_block (negotiated sz s) k, from))
         (seqZ 0 total) /\
  concat (map (fun x => payload x.1.2) (drop 1 (sent r.1.2))) = _data s.
Proof.
  intros Hc Hst Hparse Hv Hint Hrange Hfit total r. subst r total.
  destruct (parse_options_returns (recvfrom 65536 dgram))
    as (opts' & evs & Hquiet & Hrun).
  rewrite Hrun in Hparse. injection Hparse as ->.
  pose proof (handle_tftp_negotiate _ from _ _ _ sz Hst (Hrun s)
                (usable_blksize_some _ _ _ Hv Hint Hrange)) as Hneg.
  destruct (Z.gtb_spec ((len (_data s) + sz - 1) / sz) 65535) as [Hover|_];
    [lia|].
  assert (consistent (negotiated sz s)) as Hc'
    by (apply negotiated_consistent; [exact Hc | lia]).
  destruct (serve_acks (negotiated sz s) from
              (seqZ 0 ((len (_data s) + sz - 1) / sz)) Hc' Hfit)
    as (evs2 & Hserve & Hsent).
  { apply Forall_seqZ. intros k Hk. cbn [negotiated _total_blocks]. lia. }
  unfold ack_script. cbn [serve]. unfold bind. rewrite Hneg, Hserve.
  cbn [fst snd]. rewrite !sent_app, Hquiet, Hsent. cbn [app sent omap].
  split; [reflexivity|]. split; [reflexivity|]. split; [reflexivity|].
  change (concat (map (fun x : sock * bytes * addr => payload x.1.2)
            (map (fun k : Z =>
                    (TftpSock, data_block (negotiated sz s) k, from))
               (seqZ 0 ((len (_data s) + sz - 1) / sz)))) = _data s).
  rewrite map_map. cbn [fst snd].
  exact (blocks_cover (negotiated sz s) Hc').
Qed.

End Negotiated.

Lemma negotiated_transfer_delivers_firmware_witness :
  let s := new_server FILENAME (firmware 1500) in
  let dgram := rrq (option_field "blksize" "1024") in
  let total := (len (_data s) + 1024 - 1) / 1024 in
  let r := @serve ascii_builtins
             ((TftpSock, dgram, client) :: ack_script client 0 total) s in
  consistent s /\
  startswith (_rrq_prefix s) (recvfrom 65536 dgram) = true /\
  (@_parse_options ascii_builtins (recvfrom 65536 dgram) s).2
  = Ret {[ u "blksize" := u "1024" ]} /\
  ({[ u "blksize" := u "1024" ]} : gmap pystr pystr) !! u "blksize"
  = Some (u "1024") /\
  @py_int ascii_builtins (u "1024") = Some 1024 /\
  8 <= 1024 <= 65464 /\
  (len (_data s) + 1024 - 1) / 1024 <= 65535 /\
  r.2 = Ret tt /\ r.1.1 = negotiated 1024 s /\
  sent r.1.2
  = (TftpSock, oack_packet 1024, client)
    :: map (fun k => (TftpSock, data_block (negotiated 1024 s) k, client))
         (seqZ 0 total) /\
  concat (map (fun x => payload x.1.2) (drop 1 (sent r.1.2))) = _data s.
Proof.
  intros s dgram total r.
  assert (consistent s) as Hc by apply new_server_consistent.
  assert (startswith (_rrq_prefix s) (recvfrom 65536 dgram) = true)
    as Hst by (vm_compute; reflexivity).
  assert ((@_parse_options ascii_builtins (recvfrom 65536 dgram) s).2
          = Ret {[ u "blksize" := u "1024" ]}) as Hp
    by (vm_compute; reflexivity).
  assert (({[ u "blksize" := u "1024" ]} : gmap pystr pystr) !! u "blksize"
          = Some (u "1024")) as Hv by (vm_compute; reflexivity).
  assert (@py_int ascii_builtins (u "1024") = Some 1024) as Hint
    by (vm_compute; reflexivity).
  assert (8 <= 1024 <= 65464) as Hrange by lia.
  assert ((len (_data s) + 1024 - 1) / 1024 <= 65535) as Hfit
    by (vm_compute; discriminate).
  split; [exact Hc|]. split; [exact Hst|]. split; [exact Hp|].
  split; [exact Hv|]. split; [exact Hint|]. split; [exact Hrange|].
  split; [exact Hfit|].
  exact (@negotiated_transfer_delivers_firmware ascii_builtins s dgram client
           _ _ 1024 Hc Hst Hp Hv Hint Hrange Hfit).
Defined.

(** ** The two sockets side by side *)

Lemma handle_handshake_run (dgram : bytes) (from : addr) (s : server) :
  exists evs,
    _handle_handshake dgram from s = (s, evs, Ret tt) /\
    filter (fun x => x.1.1 = TftpSock) (sent evs) = [].
Proof.
  unfold _handle_handshake.
  destruct (decide (recvfrom 20 dgram = HANDSHAKE_BYTES));
    eexists; split; reflexivity.
Qed.

(** The state a datagram on the TFTP socket leaves: the old one, or the
    old one with another block size within bounds. *)
Lemma send_block_state (s : server) (k : Z) (to : addr) :
  (_send_block k to s).1.1 = s \/
  (_send_block k to s).1.1 = negotiated DEFAULT_BLOCK_SIZE s.
Proof.
  set (r := _send_block k to s).
  assert (r = _send_block k to s) as Hr by reflexivity. clearbody r.
  unfold _send_block, bind at 1, get in Hr. cbn [app] in Hr.
  destruct (py_slice _ _ _) as [|x data].
  - unfold bind, print, emit in Hr.
    destruct (decide (_block_size s = DEFAULT_BLOCK_SIZE));
      [left; subst r; reflexivity|].
    rewrite set_block_size_default_run in Hr. right. subst r. reflexivity.
  - left. unfold bind at 1 in Hr.
    destruct (pack_HH OP_DATA (k + 1)) as [hdr|]; subst r; run_method;
      [|reflexivity].
    destruct (_total_blocks s =? 0); reflexivity.
Qed.

Section Sockets.
Context `{PyBuiltins}.

Lemma handle_tftp_state (dgram : bytes) (from : addr) (s : server) :
  (_handle_tftp dgram from s).1.1 = s \/
  exists sz, 8 <= sz <= 65464 /\
             (_handle_tftp dgram from s).1.1 = negotiated sz s.
Proof.
  destruct (startswith (_rrq_prefix s) (recvfrom 65536 dgram)) eqn:Hst.
  - destruct (parse_options_returns (recvfrom 65536 dgram))
      as (opts & evs & Hquiet & Hrun).
    destruct (usable_blksize opts) as [sz|] eqn:Hu.
    + right. exists sz. split; [exact (usable_blksize_range _ _ Hu)|].
      rewrite (handle_tftp_negotiate _ _ _ _ _ sz Hst (Hrun s) Hu).
      reflexivity.
    + rewrite (handle_tftp_plain _ _ _ _ _ Hst (Hrun s) Hu). cbn [fst].
      destruct (Z_lt_le_dec 65535 (_total_blocks s)) as [Hover|Hfit].
      * left. rewrite start_transfer_overflow by assumption. reflexivity.
      * rewrite start_transfer_run by assumption. cbn [fst].
        destruct (send_block_state s 0 from) as [->| ->];
          [left; reflexivity|].
        right. exists DEFAULT_BLOCK_SIZE. split; [|reflexivity].
        unfold DEFAULT_BLOCK_SIZE. lia.
  - destruct (startswith ACK_PREFIX dgram && (len dgram >=? 4)) eqn:Hack.
    + rewrite handle_tftp_ack_any by assumption.
      destruct (send_block_state s (acked_block dgram) from) as [->| ->];
        [left; reflexivity|].
      right. exists DEFAULT_BLOCK_SIZE. split; [|reflexivity].
      unfold DEFAULT_BLOCK_SIZE. lia.
    + left. rewrite handle_tftp_other by assumption. reflexivity.
Qed.

Lemma handle_tftp_sent_sock (dgram : bytes) (from : addr) (s : server) :
  filter (fun x => x.1.1 = TftpSock) (sent (_handle_tftp dgram from s).1.2)
  = sent (_handle_tftp dgram from s).1.2.
Proof.
  destruct (startswith (_rrq_prefix s) (recvfrom 65536 dgram)) eqn:Hst.
  - destruct (parse_options_returns (recvfrom 65536 dgram))
      as (opts & evs & Hquiet & Hrun).
    destruct (usable_blksize opts) as [sz|] eqn:Hu.
    + rewrite (handle_tftp_negotiate _ _ _ _ _ sz Hst (Hrun s) Hu).
      cbn [fst snd]. rewrite !sent_app, Hquiet.
      destruct (_ >? 65535); reflexivity.
    + rewrite (handle_tftp_plain _ _ _ _ _ Hst (Hrun s) Hu).
      cbn [fst snd]. rewrite sent_app, Hquiet. cbn [app].
      destruct (start_transfer_sent s from) as [->|(p & _ & ->)];
        reflexivity.
  - destruct (startswith ACK_PREFIX dgram && (len dgram >=? 4)) eqn:Hack.
    + rewrite handle_tftp_ack_any by assumption.
      destruct (send_block_sent s (acked_block dgram) from)
        as [->|(p & _ & ->)]; reflexivity.
    + rewrite handle_tftp_other by assumption. reflexivity.
Qed.

(** X8: datagrams on the handshake socket do not touch the transfer:
    served with or without them, the datagrams of a wake-up leave the
    same object, end the same way and put the same packets on the TFTP
    socket. *)
Theorem handshakes_do_not_disturb_tftp
    (ready : list (sock * bytes * addr)) (s : server) :
  let r := serve ready s in
  let r' := serve (tftp_only ready) s in
  r.1.1 = r'.1.1 /\ r.2 = r'.2 /\
  filter (fun x => x.1.1 = TftpSock) (sent r.1.2) = sent r'.1.2.
Proof.
  cbn zeta. revert s.
  induction ready as [|[[k dgram] from] ready IH]; intros s.
  - repeat split.
  - destruct k; unfold tftp_only.
    + rewrite filter_cons_False by (cbn; discriminate).
      fold (tftp_only ready). cbn [serve]. unfold bind.
      destruct (handle_handshake_run dgram from s) as (evs & -> & Hnone).
      destruct (IH s) as (Hs & Hr & Hsent).
      destruct (serve ready s) as [[s2 ev2] r2].
      cbn [fst snd] in *. rewrite sent_app, filter_app, Hnone.
      repeat split; assumption.
    + rewrite filter_cons_True by reflexivity.
      fold (tftp_only ready). cbn [serve]. unfold bind.
      pose proof (handle_tftp_sent_sock dgram from s) as Hsock.
      destruct (_handle_tftp dgram from s) as [[s1 ev] [[]|e]];
        cbn [fst snd] in Hsock.
      * destruct (IH s1) as (Hs & Hr & Hsent).
        destruct (serve ready s1) as [[s2 ev2] r2].
        destruct (serve (tftp_only ready) s1) as [[s2' ev2'] r2'].
        cbn [fst snd] in *. rewrite !sent_app, filter_app, Hsock, Hsent.
        repeat split; assumption.
      * cbn [fst snd]. repeat split. exact Hsock.
Qed.

(** ** What the event loop keeps *)

Lemma handle_tftp_kept (s0 s : server) (dgram : bytes) (from : addr) :
  kept s0 s -> kept s0 (_handle_tftp dgram from s).1.1.
Proof.
  intros (Hc & Hr & Hd & Hp).
  destruct (handle_tftp_state dgram from s) as [->|(sz & Hsz & ->)].
  - repeat split; assumption || apply Hc || apply Hr.
  - split; [apply negotiated_consistent; [exact Hc | lia]|].
    split; [exact Hsz|]. split; assumption.
Qed.

Lemma serve_kept (s0 s : server) (ready : list (sock * bytes * addr)) :
  kept s0 s -> kept s0 (serve ready s).1.1.
Proof.
  revert s. induction ready as [|[[k dgram] from] ready IH]; intros s Hk.
  - exact Hk.
  - destruct k; cbn [serve]; unfold bind.
    + destruct (handle_handshake_run dgram from s) as (evs & -> & _).
      specialize (IH s Hk).
      destruct (serve ready s) as [[s2 ev2] r2]. exact IH.
    + pose proof (handle_tftp_kept s0 s dgram from Hk) as Hs.
      destruct (_handle_tftp dgram from s) as [[s1 ev] [[]|e]];
        cbn [fst] in Hs; [|exact Hs].
      specialize (IH s1 Hs).
      destruct (serve ready s1) as [[s2 ev2] r2]. exact IH.
Qed.

(** X1: every object the event loop goes through, from the one the
    constructor built, is consistent (the stored block count belongs to
    the stored block size), has a block size within 8..65464, and still
    holds the firmware and the request prefix it was built with. *)
Theorem served_states_are_kept (filename data : bytes) (ws : list wakeup) :
  kept (new_server filename data)
    (run_loop ws (new_server filename data)).1.1.
Proof.
  assert (kept (new_server filename data) (new_server filename data)) as Hk.
  { split; [apply new_server_consistent|].
    split; [rewrite new_server_eq; unfold block_size_in_range; cbn; lia|].
    split; reflexivity. }
  revert Hk. generalize (new_server filename data) at 2 4 as s.
  induction ws as [|[ready|] ws IH]; intros s Hk.
  - exact Hk.
  - cbn [run_loop].
    pose proof (serve_kept _ s ready Hk) as Hs.
    destruct (serve ready s) as [[s1 ev] [[]|e]]; cbn [fst] in Hs;
      [|exact Hs].
    specialize (IH s1 Hs).
    destruct (run_loop ws s1) as [[s2 ev2] r2]. exact IH.
  - exact Hk.
Qed.

End Sockets.

(** ** Requests as a client writes them *)

Lemma startswith_marker_no (c : byte) (rest : bytes) :
  c <> NUL -> startswith MODE_MARKER (c :: rest) = false.
Proof.
  intros Hc. unfold MODE_MARKER. cbn [startswith].
  destruct (decide (NUL = c)); [congruence | reflexivity].
Qed.

Lemma cut_first_after_name (fname rest : bytes) :
  NUL ∉ fname ->
  cut_first MODE_MARKER (fname ++ MODE_MARKER ++ rest) = Some (fname, rest).
Proof.
  induction fname as [|c fname IH]; intros Hnul.
  - cbn [app]. destruct (MODE_MARKER ++ rest) eqn:Hm; [discriminate Hm|].
    rewrite <- Hm. unfold cut_first.
    destruct rest; cbn [app]; rewrite ?startswith_app;
      change (length MODE_MARKER) with 7%nat;
      rewrite ?app_nil_r; reflexivity.
  - assert (c <> NUL) as Hc by set_solver.
    assert (NUL ∉ fname) as Hrest by set_solver.
    cbn [app cut_first]. rewrite startswith_marker_no by exact Hc.
    rewrite (IH Hrest). reflexivity.
Qed.

Lemma cut_first_step (sep : bytes) (c : byte) (s : bytes) :
  startswith sep (c :: s) = false ->
  cut_first sep (c :: s)
  = match cut_first sep s with
    | Some (h, t) => Some (c :: h, t)
    | None => None
    end.
Proof. intros Hno. cbn [cut_first]. rewrite Hno. reflexivity. Qed.

Lemma cut_first_request (fname rest : bytes) :
  NUL ∉ fname ->
  cut_first MODE_MARKER (request_prefix fname ++ rest)
  = Some ([byte_of_Z 0; byte_of_Z 1] ++ fname, rest).
Proof.
  intros Hnul. unfold request_prefix.
  change (NUL :: b "octet" ++ [NUL]) with MODE_MARKER.
  rewrite <- !app_assoc. cbn [app].
  rewrite cut_first_step by reflexivity.
  rewrite cut_first_step by reflexivity.
  rewrite cut_first_after_name by exact Hnul. reflexivity.
Qed.

Lemma bytes_split_field (f rest : bytes) :
  NUL ∉ f -> bytes_split NUL (f ++ NUL :: rest) = f :: bytes_split NUL rest.
Proof.
  induction f as [|c f IH]; intros Hnul.
  - cbn [app bytes_split]. destruct (decide (NUL = NUL)); [reflexivity|].
    contradiction.
  - assert (c <> NUL) as Hc by set_solver.
    assert (NUL ∉ f) as Hrest by set_solver.
    cbn [app bytes_split]. destruct (decide (c = NUL)); [contradiction|].
    rewrite (IH Hrest). reflexivity.
Qed.

Lemma bytes_split_encode (pairs : list (bytes * bytes)) :
  Forall (fun p => (NUL ∉ p.1) /\ (NUL ∉ p.2)) pairs ->
  bytes_split NUL (encode_options pairs)
  = concat (map (fun p => [p.1; p.2]) pairs) ++ [[]].
Proof.
  intros Hall. induction Hall as [|p pairs [Hn Hv] _ IH]; [reflexivity|].
  change (encode_options (p :: pairs))
    with ((p.1 ++ [NUL] ++ p.2 ++ [NUL]) ++ encode_options pairs).
  rewrite <- !app_assoc. cbn [app].
  rewrite bytes_split_field by exact Hn.
  rewrite bytes_split_field by exact Hv.
  rewrite IH. reflexivity.
Qed.

Section Requests.
Context `{PyBuiltins}.

Lemma options_of_fields_pairs (pairs : list (bytes * bytes))
    (opts : gmap pystr pystr) :
  options_of_fields (concat (map (fun p => [p.1; p.2]) pairs)) opts
  = foldl (fun m p =>
             let key := str_lower (decode_ignore p.1) in
             if decide (key = []) then m
             else <[key := decode_ignore p.2]> m)
          opts pairs.
Proof.
  revert opts. induction pairs as [|[n v] pairs IH]; intros opts;
    [reflexivity|].
  cbn [map concat app fst snd options_of_fields foldl]. apply IH.
Qed.

Lemma parse_encoded (fname : bytes) (pairs : list (bytes * bytes))
    (s : server) :
  NUL ∉ fname -> Forall (fun p => (NUL ∉ p.1) /\ (NUL ∉ p.2)) pairs ->
  _parse_options (request_prefix fname ++ encode_options pairs) s
  = (s, [Print (MsgClientOptions (options_of_pairs pairs))],
     Ret (options_of_pairs pairs)).
Proof.
  intros Hname Hpairs. rewrite parse_options_run. unfold bytes_split1.
  rewrite cut_first_request by exact Hname. cbn [lookup list_lookup].
  rewrite bytes_split_encode by exact Hpairs.
  rewrite options_of_fields_odd.
  - rewrite options_of_fields_pairs. reflexivity.
  - clear. induction pairs as [|p pairs IH]; [exists 0%nat; reflexivity|].
    destruct IH as [k Hk]. exists (S k). cbn [map concat app length].
    rewrite Hk. lia.
Qed.

(** X9: a read request for a file name without zero bytes, with option
    names and values without zero bytes written one after the other,
    each closed by a zero byte, parses to the mapping of these pairs:
    names decoded and lowered, values decoded, pairs whose name decodes
    to nothing left out, a later pair over an earlier one of the same
    name. *)
Theorem parse_options_round_trip (fname : bytes)
    (pairs : list (bytes * bytes)) (s : server) :
  NUL ∉ fname -> Forall (fun p => (NUL ∉ p.1) /\ (NUL ∉ p.2)) pairs ->
  (_parse_options (request_prefix fname ++ encode_options pairs) s).2
  = Ret (options_of_pairs pairs).
Proof.
  intros Hname Hpairs. rewrite parse_encoded by assumption. reflexivity.
Qed.

(** X10: when an option occurs more than once in a request, the last
    occurrence counts: the value parsed for the name of the last pair is
    the value of that pair. *)
Theorem last_option_wins (fname : bytes) (front : list (bytes * bytes))
    (name value : bytes) (s : server) :
  NUL ∉ fname -> Forall (fun p => (NUL ∉ p.1) /\ (NUL ∉ p.2)) front ->
  NUL ∉ name -> NUL ∉ value ->
  str_lower (decode_ignore name) <> [] ->
  exists opts,
    (_parse_options
       (request_prefix fname ++ encode_options (front ++ [(name, value)]))
       s).2 = Ret opts /\
    opts !! str_lower (decode_ignore name) = Some (decode_ignore value).
Proof.
  intros Hname Hfront Hn Hv Hkey.
  rewrite parse_encoded
    by (assumption || (apply Forall_app; split; [assumption|];
                       apply Forall_singleton; split; assumption)).
  eexists. split; [reflexivity|].
  unfold options_of_pairs. rewrite foldl_snoc. cbn [fst snd].
  destruct (decide (str_lower (decode_ignore name) = [])); [contradiction|].
  apply lookup_insert_eq.
Qed.

End Requests.

Lemma parse_options_round_trip_witness :
  let pairs := [(b "BLKSIZE", b "1024"); (b "tsize", b "0")] in
  (NUL ∉ FILENAME) /\ Forall (fun p => (NUL ∉ p.1) /\ (NUL ∉ p.2)) pairs /\
  (@_parse_options ascii_builtins
     (request_prefix FILENAME ++ encode_options pairs)
     (new_server FILENAME (firmware 1500))).2
  = Ret (@options_of_pairs ascii_builtins pairs).
Proof.
  intros pairs.
  assert (NUL ∉ FILENAME) as Hname
    by (intros Hin; apply list_elem_of_In in Hin; vm_compute in Hin;
        intuition discriminate).
  assert (Forall (fun p => (NUL ∉ p.1) /\ (NUL ∉ p.2)) pairs) as Hpairs.
  { unfold pairs.
    repeat (apply List.Forall_cons;
              [split; cbn [fst snd]; intros Hin;
               apply list_elem_of_In in Hin; vm_compute in Hin;
               intuition discriminate|]).
    apply List.Forall_nil. }
  split; [exact Hname|]. split; [exact Hpairs|].
  exact (@parse_options_round_trip ascii_builtins FILENAME pairs _
           Hname Hpairs).
Defined.

Lemma last_option_wins_witness :
  let front := [(b "blksize", b "512")] in
  (NUL ∉ FILENAME) /\ Forall (fun p => (NUL ∉ p.1) /\ (NUL ∉ p.2)) front /\
  (NUL ∉ b "BlkSize") /\ (NUL ∉ b "1024") /\
  @str_lower ascii_builtins (@decode_ignore ascii_builtins (b "BlkSize"))
  <> [] /\
  exists opts,
    (@_parse_options ascii_builtins
       (request_prefix FILENAME
        ++ encode_options (front ++ [(b "BlkSize", b "1024")]))
       (new_server FILENAME (firmware 1500))).2 = Ret opts /\
    opts !! @str_lower ascii_builtins
              (@decode_ignore ascii_builtins (b "BlkSize"))
    = Some (@decode_ignore ascii_builtins (b "1024")).
Proof.
  intros front.
  assert (NUL ∉ FILENAME) as Hname
    by (intros Hin; apply list_elem_of_In in Hin; vm_compute in Hin;
        intuition discriminate).
  assert (Forall (fun p => (NUL ∉ p.1) /\ (NUL ∉ p.2)) front) as Hfront.
  { unfold front.
    repeat (apply List.Forall_cons;
              [split; cbn [fst snd]; intros Hin;
               apply list_elem_of_In in Hin; vm_compute in Hin;
               intuition discriminate|]).
    apply List.Forall_nil. }
  assert (NUL ∉ b "BlkSize") as Hn
    by (intros Hin; apply list_elem_of_In in Hin; vm_compute in Hin;
        intuition discriminate).
  assert (NUL ∉ b "1024") as Hv
    by (intros Hin; apply list_elem_of_In in Hin; vm_compute in Hin;
        intuition discriminate).
  assert (@str_lower ascii_builtins
            (@decode_ignore ascii_builtins (b "BlkSize")) <> []) as Hkey
    by (vm_compute; discriminate).
  split; [exact Hname|]. split; [exact Hfront|]. split; [exact Hn|].
  split; [exact Hv|]. split; [exact Hkey|].
  exact (@last_option_wins ascii_builtins FILENAME front _ _ _
           Hname Hfront Hn Hv Hkey).
Defined.

(** ** The event loop and the exit status *)

Section Status.
Context `{PyBuiltins}.


Lemma run_loop_interrupt (ws : list wakeup) (s : server) :
  KeyboardInterrupt ∈ ws -> (run_loop ws s).2 = Ret true.
Proof.
  revert s. induction ws as [|[ready|] ws IH]; intros s Hin.
  - apply elem_of_nil in Hin. contradiction.
  - cbn [run_loop]. destruct (serve ready s) as [[s1 ev] [[]|e]];
      [|reflexivity].
    apply elem_of_cons in Hin. destruct Hin as [Heq|Hin']; [discriminate|].
    specialize (IH s1 Hin').
    destruct (run_loop ws s1) as [[s2 ev2] r2]. exact IH.
  - reflexivity.
Qed.

Lemma run_run_loop (ws : list wakeup) (s : server) :
  run ws s
  = (let r := run_loop ws s in
     match r.2 with
     | Ret stopped =>
         (r.1.1,
          Print MsgStarted
          :: r.1.2 ++ (if stopped then [Print MsgStopped] else []),
          Ret stopped)
     | Raise e => (r.1.1, Print MsgStarted :: r.1.2, Raise e)
     end).
Proof.
  unfold run, bind, print, emit, ret.
  destruct (run_loop ws s) as [[s1 ev] [[|]|e]]; cbn [fst snd app];
    rewrite ?app_nil_r; reflexivity.
Qed.

(** X11: the wake-ups after Ctrl-C play no part: [run] gives the same
    object, the same output and the same result whatever follows the
    interrupt. *)
Theorem nothing_is_served_after_interrupt (before after : list wakeup)
    (s : server) :
  run (before ++ KeyboardInterrupt :: after) s
  = run (before ++ [KeyboardInterrupt]) s.
Proof.
  rewrite !run_run_loop.
  assert (run_loop (before ++ KeyboardInterrupt :: after) s
          = run_loop (before ++ [KeyboardInterrupt]) s) as ->;
    [|reflexivity].
  revert s. induction before as [|[ready|] before IH]; intros s.
  - reflexivity.
  - cbn [app run_loop]. destruct (serve ready s) as [[s1 ev] [[]|e]];
      [|reflexivity].
    rewrite IH. reflexivity.
  - reflexivity.
Qed.





(** X13: when the setup went through, Ctrl-C ends the program in order,
    whatever was served before: the exit status is 0 and the last lines
    printed are those of the stopped server and the goodbye. *)
Theorem interrupt_ends_with_status_0 (w : world) (fw : bytes) :
  isfile w = true -> file_content w = Some fw -> fw <> [] ->
  bind_handshake w = Bound -> bind_tftp w = Bound ->
  KeyboardInterrupt ∈ wakeups w ->
  (main w).2 = Some 0 /\
  exists evs, (main w).1 = evs ++ [Print MsgStopped; Print MsgGoodbye].
Proof.
  intros Hfile Hread Hne Hb1 Hb2 Hint.
  rewrite (main_serving w fw) by assumption.
  rewrite run_run_loop. cbn zeta.
  rewrite (run_loop_interrupt _ (new_server (arg_filename w) fw) Hint).
  cbn [fst snd]. split; [reflexivity|].
  eexists. rewrite !app_comm_cons, !app_assoc.
  change [Print MsgStopped; Print MsgGoodbye]
    with ([Print MsgStopped] ++ [Print MsgGoodbye]).
  rewrite !app_assoc. reflexivity.
Qed.

End Status.

Lemma interrupt_ends_with_status_0_witness :
  let w := {| arg_filename := FILENAME;
              isfile := true;
              file_content := Some (firmware 1500);
              bind_handshake := Bound;
              bind_tftp := Bound;
              wakeups := [Readable [(TftpSock, rrq [], client)];
                          KeyboardInterrupt] |} in
  isfile w = true /\ file_content w = Some (firmware 1500) /\
  firmware 1500 <> [] /\
  bind_handshake w = Bound /\ bind_tftp w = Bound /\
  KeyboardInterrupt ∈ wakeups w /\
  (@main ascii_builtins w).2 = Some 0 /\
  exists evs,
    (@main ascii_builtins w).1 = evs ++ [Print MsgStopped; Print MsgGoodbye].
Proof.
  intros w.
  assert (firmware 1500 <> []) as Hne by (apply firmware_not_nil; lia).
  assert (KeyboardInterrupt ∈ wakeups w) as Hint
    by (cbn [wakeups w]; apply elem_of_cons; right; apply list_elem_of_singleton;
        reflexivity).
  split; [reflexivity|]. split; [reflexivity|]. split; [exact Hne|].
  split; [reflexivity|]. split; [reflexivity|]. split; [exact Hint|].
  exact (@interrupt_ends_with_status_0 ascii_builtins w (firmware 1500)
           eq_refl eq_refl Hne eq_refl eq_refl Hint).
Defined.

(** ** Acknowledgments that come again *)

Section Again.
Context `{PyBuiltins}.

(** X14: the engine keeps no cursor: an acknowledgment of a block inside
    the firmware that arrives n times is answered n times with the same
    DATA packet, the block after it, and the object stays as it is. *)
Theorem repeated_ack_resends_block (s : server) (from : addr) (K : Z)
    (n : nat) :
  consistent s -> _total_blocks s <= 65535 -> 0 <= K < _total_blocks s ->
  let r := serve (replicate n (TftpSock, ack K, from)) s in
  r.2 = Ret tt /\ r.1.1 = s /\
  sent r.1.2 = replicate n (TftpSock, data_block s K, from).
Proof.
  intros Hc Hfit HK r. subst r.
  destruct (serve_acks s from (replicate n K) Hc Hfit)
    as (evs & Hserve & Hsent).
  { apply Forall_replicate. exact HK. }
  change (map (fun k => (TftpSock, ack k, from)) (replicate n K))
    with ((fun k => (TftpSock, ack k, from)) <$> replicate n K) in Hserve.
  change (map (fun k => (TftpSock, data_block s k, from)) (replicate n K))
    with ((fun k => (TftpSock, data_block s k, from)) <$> replicate n K)
    in Hsent.
  rewrite fmap_replicate in Hserve, Hsent.
  rewrite Hserve. cbn [fst snd]. repeat split. exact Hsent.
Qed.

End Again.

Lemma repeated_ack_resends_block_witness :
  let s := new_server FILENAME (firmware 1500) in
  let r := @serve ascii_builtins (replicate 3 (TftpSock, ack 1, client)) s in
  consistent s /\ _total_blocks s <= 65535 /\ 0 <= 1 < _total_blocks s /\
  r.2 = Ret tt /\ r.1.1 = s /\
  sent r.1.2 = replicate 3 (TftpSock, data_block s 1, client).
Proof.
  intros s r.
  assert (consistent s) as Hc by apply new_server_consistent.
  assert (_total_blocks s <= 65535) as Hfit by (vm_compute; discriminate).
  assert (0 <= 1 < _total_blocks s) as HK by (vm_compute; split; congruence).
  split; [exact Hc|]. split; [exact Hfit|]. split; [exact HK|].
  exact (@repeated_ack_resends_block ascii_builtins s client 1 3 Hc Hfit HK).
Defined.
